(** * Blog API with Basic authentication: a shallow embedding of
      [models.js] and [server.js], and the properties of its endpoints.

    The Express handlers are written in a small state-and-exception monad:
    the state is the document store, the response on the wire (which can be
    written once) and the log of store calls; an exception is a JavaScript
    throw or a rejected promise.  A promise chain
    [p.then(f).then(g).catch(h)] reads [try (x <- p ;; y <- f x ;; g y) h].

    What the libraries decide and the source does not (how mongoose casts a
    value that is no string, which strings are ObjectIds, what bcrypt
    computes) are Variables of the section [Server]. *)

From Stdlib Require Import String Ascii List ZArith NArith Bool Lia DecimalString.
Import ListNotations.
Open Scope string_scope.
Set Warnings "-register-all".

(* ===================================================================== *)
(** ** JavaScript values *)
(* ===================================================================== *)

(** The values a handler sees: what [JSON.parse] yields, [undefined], and
    the host objects that flow through the promise chains (an ObjectId, a
    Date, the Express response object).  A number is kept as an integer:
    the handlers only ask whether it is a string and whether it is zero.
    An object is its list of properties; the first binding of a key is the
    one that is read. *)
Inductive value : Type :=
| VUndefined
| VNull
| VBool (b : bool)
| VNum (n : Z)
| VStr (s : string)
| VArr (items : list value)
| VObj (props : list (string * value))
| VObjectId (o : N)
| VDate (t : Z)
| VRes.

Inductive error : Type :=
| TypeError (msg : string)
| ReferenceError (msg : string)
| HeadersSent
| CastError (path : string)
| ValidationError (path : string)
| DuplicateKey (path : string).

Fixpoint assoc {A : Type} (k : string) (l : list (string * A)) : option A :=
  match l with
  | [] => None
  | (k', v) :: l' => if String.eqb k k' then Some v else assoc k l'
  end.

(** [!v] is [negb (truthy v)]. *)
Definition truthy (v : value) : bool :=
  match v with
  | VUndefined | VNull => false
  | VBool b => b
  | VNum n => negb (n =? 0)%Z
  | VStr s => negb (String.eqb s "")
  | VArr _ | VObj _ | VObjectId _ | VDate _ | VRes => true
  end.

(** [typeof v === 'string'] *)
Definition isString (v : value) : bool :=
  match v with VStr _ => true | _ => false end.

(** [k in v], for the property names the handlers ask for (none of them is
    an index, [length] or a property of [Object.prototype]).  On a primitive
    the operator throws. *)
Definition js_in (k : string) (v : value) : error + bool :=
  match v with
  | VObj props => inr (match assoc k props with Some _ => true | None => false end)
  | VArr _ | VObjectId _ | VDate _ | VRes => inr false
  | _ => inl (TypeError "Cannot use 'in' operator")
  end.

(** [v.k], again for the handlers' property names.  Reading a property of
    [undefined] or [null] throws. *)
Definition js_get (v : value) (k : string) : error + value :=
  match v with
  | VUndefined | VNull => inl (TypeError "Cannot read property")
  | VObj props => inr (match assoc k props with Some x => x | None => VUndefined end)
  | _ => inr VUndefined
  end.

(** [a === b] where [a] is a string. *)
Definition strict_eq_str (a : string) (b : value) : bool :=
  match b with VStr s => String.eqb a s | _ => false end.

(* ===================================================================== *)
(** ** Strings: [String.prototype.trim] and template literals *)
(* ===================================================================== *)

(** A character is a code unit below 256; the white space among them. *)
Definition isWhiteSpace (c : ascii) : bool :=
  let n := nat_of_ascii c in
  ((9 <=? n) && (n <=? 13) || (n =? 32) || (n =? 160))%nat.

Fixpoint trimStart (s : string) : string :=
  match s with
  | EmptyString => EmptyString
  | String c s' => if isWhiteSpace c then trimStart s' else s
  end.

Fixpoint trimEnd (s : string) : string :=
  match s with
  | EmptyString => EmptyString
  | String c s' =>
      match trimEnd s' with
      | EmptyString => if isWhiteSpace c then EmptyString else String c EmptyString
      | t => String c t
      end
  end.

Definition trim (s : string) : string := trimEnd (trimStart s).

(** [s.includes(sub)] *)
Definition includes (sub s : string) : Prop :=
  exists pre post, s = pre ++ sub ++ post.

(** [s.split(sep)] for a separator of one character: the pieces between
    its occurrences, one piece when there is none. *)
Fixpoint split (sep : ascii) (s : string) : list string :=
  match s with
  | EmptyString => [EmptyString]
  | String c s' =>
      if Ascii.eqb c sep then EmptyString :: split sep s'
      else
        match split sep s' with
        | piece :: pieces => String c piece :: pieces
        | [] => [String c EmptyString]
        end
  end.

Definition toLowerCase_char (c : ascii) : ascii :=
  let n := nat_of_ascii c in
  if ((65 <=? n) && (n <=? 90))%nat then ascii_of_nat (n + 32) else c.

Fixpoint toLowerCase (s : string) : string :=
  match s with
  | EmptyString => EmptyString
  | String c s' => String (toLowerCase_char c) (toLowerCase s')
  end.

Fixpoint includesb (sub s : string) : bool :=
  match s with
  | EmptyString => prefix sub EmptyString
  | String _ s' => prefix sub s || includesb sub s'
  end.

(** [/Basic/i.test(scheme)] *)
Definition testBasic (scheme : string) : bool :=
  includesb "basic" (toLowerCase scheme).

(** A String path of a stored document: never set, set to [null], or a
    string. *)
Inductive field : Type :=
| Absent
| Null
| Txt (s : string).

(** [`${f}`] *)
Definition interpolate (f : field) : string :=
  match f with
  | Absent => "undefined"
  | Null => "null"
  | Txt s => s
  end.

Definition field_value (f : field) : value :=
  match f with
  | Absent => VUndefined
  | Null => VNull
  | Txt s => VStr s
  end.

(* ===================================================================== *)
(** ** models.js: the two schemas *)
(* ===================================================================== *)

Record Author : Type := mkAuthor {
  firstName : field;
  lastName : field
}.

Record BlogPost : Type := mkBlogPost {
  post_id : N;
  author : Author;
  title : field;
  content : field;
  created : Z
}.

Record User : Type := mkUser {
  user_id : N;
  userName : string;
  password : string;
  user_firstName : field;
  user_lastName : field
}.

(** [blogPostSchema.virtual('authorName')] *)
Definition authorName (p : BlogPost) : string :=
  trim (interpolate (firstName (author p)) ++ " " ++ interpolate (lastName (author p))).

(** [blogPostSchema.methods.apiRepr] *)
Definition post_apiRepr (p : BlogPost) : value :=
  VObj [ ("id", VObjectId (post_id p));
         ("author", VStr (authorName p));
         ("content", field_value (content p));
         ("title", field_value (title p));
         ("created", VDate (created p)) ].

(** [userSchema.methods.apiRepr] *)
Definition user_apiRepr (u : User) : value :=
  VObj [ ("userName", VStr (userName u));
         ("firstName", field_value (user_firstName u));
         ("lastName", field_value (user_lastName u)) ].

(** The functions models.js attaches to the user schema.  A document gets
    its methods from [userSchema.methods]; models.js puts [apiRepr] there,
    and assigns [validatePassword] as a property of the function
    [userSchema.method] instead.  [hashPassword] is a static of the model. *)
Inductive userMethod : Type :=
| ApiRepr
| ValidatePassword.

Definition userSchema_methods : list (string * userMethod) :=
  [ ("apiRepr", ApiRepr) ].

Definition userSchema_method_properties : list (string * userMethod) :=
  [ ("validatePassword", ValidatePassword) ].

(** [user[name]] for a method name: the schema's [methods] and nothing
    else. *)
Definition user_method (name : string) : option userMethod :=
  assoc name userSchema_methods.

(* ===================================================================== *)
(** ** The store, the response and the handler monad *)
(* ===================================================================== *)

Record store : Type := mkStore {
  blogposts : list BlogPost;
  users : list User;
  nextId : N
}.

Inductive payload : Type :=
| Json (v : value)
| Text (s : string).

Record response : Type := mkResponse {
  status : nat;
  body : payload
}.

Inductive dbcall : Type :=
| UserFindOne (name : string)
| UserCount (name : string)
| UserCreate
| PostFind
| PostFindById (id : string)
| PostCreate
| PostFindByIdAndUpdate (id : string)
| PostFindByIdAndRemove (id : string).

Record state : Type := mkState {
  db : store;
  sent : option response;
  calls : list dbcall
}.

Inductive outcome (A : Type) : Type :=
| Ok (a : A)
| Thrown (e : error).
Arguments Ok {A} a.
Arguments Thrown {A} e.

Definition M (A : Type) : Type := state -> outcome A * state.

Definition ret {A : Type} (a : A) : M A := fun st => (Ok a, st).

Definition bind {A B : Type} (m : M A) (k : A -> M B) : M B :=
  fun st =>
    match m st with
    | (Ok a, st') => k a st'
    | (Thrown e, st') => (Thrown e, st')
    end.

Definition throw {A : Type} (e : error) : M A := fun st => (Thrown e, st).

(** [p.catch(h)], or [try { p } catch (e) { h(e) }]: the changes [p] made
    before it threw stay. *)
Definition try_catch {A : Type} (m : M A) (h : error -> M A) : M A :=
  fun st =>
    match m st with
    | (Ok a, st') => (Ok a, st')
    | (Thrown e, st') => h e st'
    end.

(** A promise chain the handler does not wait for: what it throws after its
    last [catch] is an unhandled rejection, and nobody sees it. *)
Definition detached (m : M unit) : M unit :=
  try_catch m (fun _ => ret tt).

Definition lift {A : Type} (r : error + A) : M A :=
  match r with
  | inl e => throw e
  | inr a => ret a
  end.

Declare Scope handler_scope.
Delimit Scope handler_scope with handler.
Notation "x <- m ;; k" := (bind m (fun x => k))
  (at level 61, m at next level, right associativity) : handler_scope.
Notation "m ;;; k" := (bind m (fun _ => k))
  (at level 61, right associativity) : handler_scope.
Open Scope handler_scope.

Definition get_db : M store := fun st => (Ok (db st), st).

Definition put_db (d : store) : M unit :=
  fun st => (Ok tt, mkState d (sent st) (calls st)).

Definition log (c : dbcall) : M unit :=
  fun st => (Ok tt, mkState (db st) (sent st) (calls st ++ [c])).

(** [res.status(code).json(v)] and [res.status(code).send(text)]: the first
    one writes the response; a later one throws "Can't set headers after
    they are sent" and leaves the response as it is.  Both return [res]. *)
Definition respond (code : nat) (b : payload) : M value :=
  fun st =>
    match sent st with
    | None => (Ok VRes, mkState (db st) (Some (mkResponse code b)) (calls st))
    | Some _ => (Thrown HeadersSent, st)
    end.

Definition res_json (code : nat) (v : value) : M value := respond code (Json v).
Definition res_send (code : nat) (s : string) : M value := respond code (Text s).

(** What Express does with an error that reaches it ([next(err)], or a
    throw in the synchronous part of a handler): a 500, unless the response
    has gone out already. *)
Definition finalhandler (e : error) : M unit :=
  fun st =>
    match sent st with
    | None => (Ok tt, mkState (db st) (Some (mkResponse 500 (Text "Internal Server Error"))) (calls st))
    | Some _ => (Ok tt, st)
    end.

Definition express_route (h : M unit) : M unit := try_catch h finalhandler.

Definition message (k s : string) : value := VObj [ (k, VStr s) ].

(** The property names of an object, in order. *)
Definition keys (v : value) : list string :=
  match v with
  | VObj props => map fst props
  | _ => []
  end.

Definition done (m : M value) : M unit := _ <- m ;; ret tt.

(* ===================================================================== *)
(** ** Requests *)
(* ===================================================================== *)

Inductive route : Type :=
| GET_posts
| GET_posts_id (id : string)
| POST_posts
| POST_users
| DELETE_posts_id (id : string)
| PUT_posts_id (id : string)
| DELETE_id (id : string)
| Unmatched.

(** A request: its route, the decoded credentials of its Basic
    Authorization header if it has one, [req.body], and what the
    environment supplies while it is served (the clock, the salt bcrypt
    draws). *)
Record request : Type := mkRequest {
  target : route;
  credentials : option (string * string);
  req_body : value;
  now : Z;
  salt : string
}.

Definition protected (r : route) : bool :=
  match r with
  | GET_posts | GET_posts_id _ | POST_posts | DELETE_posts_id _ | PUT_posts_id _
  | DELETE_id _ => true
  | POST_users | Unmatched => false
  end.

(* ===================================================================== *)
(** ** A concrete environment, for running the server on examples *)
(* ===================================================================== *)

Module Example.

(** Numbers and booleans are cast by [toString()]; arrays and objects are
    refused. *)
Definition castOther (v : value) : option string :=
  match v with
  | VNum n => Some (NilZero.string_of_int (Z.to_int n))
  | VBool true => Some "true"
  | VBool false => Some "false"
  | _ => None
  end.

(** A value given for [author] that is no object is passed over: the post
    has no author names. *)
Definition castNested (v : value) : option Author :=
  Some (mkAuthor Absent Absent).

Definition hexDigit (c : ascii) : option N :=
  let n := N_of_ascii c in
  if ((48 <=? n) && (n <=? 57))%N then Some (n - 48)%N
  else if ((97 <=? n) && (n <=? 102))%N then Some (n - 87)%N
  else if ((65 <=? n) && (n <=? 70))%N then Some (n - 55)%N
  else None.

Fixpoint hexValue (acc : N) (s : string) : option N :=
  match s with
  | EmptyString => Some acc
  | String c s' =>
      match hexDigit c with
      | Some h => hexValue (16 * acc + h)%N s'
      | None => None
      end
  end.

Fixpoint bytesValue (acc : N) (s : string) : N :=
  match s with
  | EmptyString => acc
  | String c s' => bytesValue (256 * acc + N_of_ascii c)%N s'
  end.

(** An ObjectId is written as 24 hexadecimal digits, or as the 12
    characters that are its bytes. *)
Definition castObjectId (s : string) : option N :=
  if Nat.eqb (String.length s) 24 then hexValue 0 s
  else if Nat.eqb (String.length s) 12 then Some (bytesValue 0 s)
  else None.

(** Base64: the value of a digit, the digits of a text up to its padding,
    and the bytes of four digits at a time. *)
Definition base64Digit (c : ascii) : option N :=
  let n := N_of_ascii c in
  if ((65 <=? n) && (n <=? 90))%N then Some (n - 65)%N
  else if ((97 <=? n) && (n <=? 122))%N then Some (n - 71)%N
  else if ((48 <=? n) && (n <=? 57))%N then Some (n + 4)%N
  else if ((n =? 43) || (n =? 45))%N then Some 62%N
  else if ((n =? 47) || (n =? 95))%N then Some 63%N
  else None.

Fixpoint base64Digits (s : string) : list N :=
  match s with
  | EmptyString => []
  | String c s' =>
      if Ascii.eqb c "=" then []
      else
        match base64Digit c with
        | Some d => d :: base64Digits s'
        | None => base64Digits s'
        end
  end.

Definition byte (n : N) : ascii := ascii_of_N (n mod 256).

Fixpoint base64Bytes (fuel : nat) (digits : list N) : string :=
  match fuel with
  | O => EmptyString
  | S fuel' =>
      match digits with
      | a :: b :: c :: d :: rest =>
          let n := (((a * 64 + b) * 64 + c) * 64 + d)%N in
          String (byte (n / 65536)) (String (byte (n / 256)) (String (byte n)
            (base64Bytes fuel' rest)))
      | [a; b; c] =>
          let n := ((a * 64 + b) * 64 + c)%N in
          String (byte (n / 1024)) (String (byte (n / 4)) EmptyString)
      | [a; b] => String (byte ((a * 64 + b) / 16)) EmptyString
      | _ => EmptyString
      end
  end.

Definition atob (s : string) : string :=
  base64Bytes (String.length s) (base64Digits s).

(** A stand-in for bcrypt, with the shape of its output (the version and
    the cost, then the salt, then a digest) and none of its strength: the
    digest is the password. *)
Definition bcrypt_hash (salt : string) (rounds : nat) (pw : string) : string :=
  "$2a$" ++ NilZero.string_of_uint (Nat.to_uint rounds) ++ "$" ++ salt ++ "$" ++ pw ++ "$".

Definition bcrypt_compare (pw hash : string) : bool :=
  match hash with
  | String _ (String _ (String _ (String _ (String _ (String _ (String _ rest)))))) =>
      match index 0 "$" rest with
      | Some i => String.eqb (substring (S i) (String.length rest - S i) rest) (pw ++ "$")
      | None => false
      end
  | _ => false
  end.

Definition alice : User :=
  mkUser 1 "alice" (bcrypt_hash "AwOoGvC4xxh8SF2hIt1m1." 10 "baseball") (Txt "Alice") (Txt "Liddell").

Definition firstPost : BlogPost :=
  mkBlogPost 2 (mkAuthor (Txt "Lewis") (Txt "Carroll")) (Txt "Down the hole") (Txt "Alice was beginning") 1000.

Definition firstPostId : string := "000000000000000000000002".
Definition otherId : string := "0000000000000000000000ff".

Definition blog : store := mkStore [firstPost] [alice] 3.

Definition protectedRoutes : list route :=
  [ GET_posts; GET_posts_id firstPostId; POST_posts;
    PUT_posts_id firstPostId; DELETE_posts_id firstPostId ].

(** A request at time 2000, for which bcrypt would draw the given salt. *)
Definition request (t : route) (c : option (string * string)) (b : value) : request :=
  mkRequest t c b 2000 "N9qo8uLOickgx2ZMRZoMye".

Definition newPost : value :=
  VObj [ ("title", VStr "Through the glass");
         ("author", VObj [ ("firstName", VStr "Lewis"); ("lastName", VStr "Carroll") ]);
         ("content", VStr "One thing was certain") ].

Definition nullTitle : value :=
  VObj [ ("title", VNull); ("content", VStr "One thing was certain") ].

Definition retitle (id : string) : value :=
  VObj [ ("id", VStr id); ("title", VStr "cats cats cats") ].

Definition bob (pw : string) : value :=
  VObj [ ("userName", VStr "bob"); ("password", VStr pw) ].

(** Posts the handler accepts without every field of the author. *)
Definition anonymousPost : value :=
  VObj [ ("title", VStr "Through the glass"); ("content", VNull) ].

Definition halfSignedPost : value :=
  VObj [ ("title", VStr "Through the glass");
         ("author", VObj [ ("firstName", VStr "Lewis") ]);
         ("content", VStr "One thing was certain") ].

End Example.

(* ===================================================================== *)
(** ** The server *)
(* ===================================================================== *)

Section Server.

(** mongoose's cast to String of a value that is neither a string nor
    [null] nor [undefined] (a number, a boolean, an array, an object):
    its [toString()], or no result for a CastError. *)
Variable castOther : value -> option string.

(** mongoose's cast of a value given for the nested path [author] that is
    neither [undefined] nor a plain object. *)
Variable castNested : value -> option Author.

(** mongoose's cast of a string to an ObjectId. *)
Variable castObjectId : string -> option N.

(** [bcrypt.hash(password, rounds)] with the salt it draws, and
    [bcrypt.compare(password, hash)]. *)
Variable bcrypt_hash : string -> nat -> string -> string.
Variable bcrypt_compare : string -> string -> bool.

(** [new Buffer(s, 'base64').toString()] *)
Variable atob : string -> string.

Definition castString (v : value) : option field :=
  match v with
  | VUndefined => Some Absent
  | VNull => Some Null
  | VStr s => Some (Txt s)
  | _ => option_map Txt (castOther v)
  end.

Definition castAuthor (v : value) : option Author :=
  match v with
  | VUndefined => Some (mkAuthor Absent Absent)
  | VObj props =>
      match castString (match assoc "firstName" props with Some x => x | None => VUndefined end),
            castString (match assoc "lastName" props with Some x => x | None => VUndefined end) with
      | Some f, Some l => Some (mkAuthor f l)
      | _, _ => None
      end
  | _ => castNested v
  end.

(** The [required] validator of a String path: a string that is not
    empty. *)
Definition required (f : field) : option string :=
  match f with
  | Txt s => if String.eqb s "" then None else Some s
  | _ => None
  end.

(** *** The User model *)

Definition User_findOne (name : string) : M (option User) :=
  log (UserFindOne name) ;;;
  d <- get_db ;;
  ret (find (fun u => String.eqb (userName u) name) (users d)).

Definition User_count (name : string) : M nat :=
  log (UserCount name) ;;;
  d <- get_db ;;
  ret (length (filter (fun u => String.eqb (userName u) name) (users d))).

(** [userSchema.statics.hashPassword] *)
Definition User_hashPassword (salt : string) (pw : string) : M value :=
  ret (VStr (bcrypt_hash salt 10 pw)).

(** [User.create({userName, password, firstName, lastName})]: the values
    are cast and validated ([userName] and [password] are required), the
    unique index on [userName] refuses a second document with the name, and
    the document is stored under a new [_id]. *)
Definition User_create (vUserName vPassword vFirstName vLastName : value) : M User :=
  log UserCreate ;;;
  match castString vUserName, castString vPassword,
        castString vFirstName, castString vLastName with
  | Some fu, Some fp, Some ff, Some fl =>
      match required fu, required fp with
      | Some u, Some p =>
          d <- get_db ;;
          if existsb (fun x => String.eqb (userName x) u) (users d)
          then throw (DuplicateKey "userName")
          else
            let doc := mkUser (nextId d) u p ff fl in
            put_db (mkStore (blogposts d) (users d ++ [doc]) (N.succ (nextId d))) ;;;
            ret doc
      | None, _ => throw (ValidationError "userName")
      | _, None => throw (ValidationError "password")
      end
  | None, _, _, _ => throw (CastError "userName")
  | _, None, _, _ => throw (CastError "password")
  | _, _, None, _ => throw (CastError "firstName")
  | _, _, _, None => throw (CastError "lastName")
  end.

(** [user.name(arg)] for a user document. *)
Definition user_call (u : User) (name : string) (arg : string) : M value :=
  match user_method name with
  | None => throw (TypeError (name ++ " is not a function"))
  | Some ApiRepr => ret (user_apiRepr u)
  | Some ValidatePassword => ret (VBool (bcrypt_compare arg (password u)))
  end.

(** *** The BlogPost model *)

Definition findPost (o : N) (l : list BlogPost) : option BlogPost :=
  find (fun p => N.eqb (post_id p) o) l.

Definition BlogPost_find : M (list BlogPost) :=
  log PostFind ;;;
  d <- get_db ;;
  ret (blogposts d).

Definition BlogPost_findById (id : string) : M (option BlogPost) :=
  log (PostFindById id) ;;;
  match castObjectId id with
  | None => throw (CastError "_id")
  | Some o => d <- get_db ;; ret (findPost o (blogposts d))
  end.

(** [BlogPost.create({title, content, author})], at time [now]. *)
Definition BlogPost_create (now : Z) (vTitle vContent vAuthor : value) : M BlogPost :=
  log PostCreate ;;;
  match castString vTitle, castString vContent, castAuthor vAuthor with
  | Some ft, Some fc, Some a =>
      match required ft with
      | Some _ =>
          d <- get_db ;;
          let doc := mkBlogPost (nextId d) a ft fc now in
          put_db (mkStore (blogposts d ++ [doc]) (users d) (N.succ (nextId d))) ;;;
          ret doc
      | None => throw (ValidationError "title")
      end
  | None, _, _ => throw (CastError "title")
  | _, None, _ => throw (CastError "content")
  | _, _, None => throw (CastError "author")
  end.

(** [$set], cast by the schema: each entry becomes an assignment to a path
    of the post; a key that is no path of the schema is dropped.  Update
    validators are off, so [required] is not asked. *)
Inductive assignment : Type :=
| SetTitle (f : field)
| SetContent (f : field)
| SetAuthor (a : Author).

Definition castEntry (entry : string * value) : option (list assignment) :=
  let (k, v) := entry in
  if String.eqb k "title" then option_map (fun f => [SetTitle f]) (castString v)
  else if String.eqb k "content" then option_map (fun f => [SetContent f]) (castString v)
  else if String.eqb k "author" then option_map (fun a => [SetAuthor a]) (castAuthor v)
  else Some [].

Fixpoint castUpdate (entries : list (string * value)) : option (list assignment) :=
  match entries with
  | [] => Some []
  | e :: rest =>
      match castEntry e, castUpdate rest with
      | Some a, Some more => Some (a ++ more)%list
      | _, _ => None
      end
  end.

Definition assign (a : assignment) (p : BlogPost) : BlogPost :=
  match a with
  | SetTitle f => mkBlogPost (post_id p) (author p) f (content p) (created p)
  | SetContent f => mkBlogPost (post_id p) (author p) (title p) f (created p)
  | SetAuthor x => mkBlogPost (post_id p) x (title p) (content p) (created p)
  end.

Definition assign_all (l : list assignment) (p : BlogPost) : BlogPost :=
  fold_left (fun q a => assign a q) l p.

(** Replace the first post whose [_id] is [o]. *)
Fixpoint replacePost (o : N) (p' : BlogPost) (l : list BlogPost) : list BlogPost :=
  match l with
  | [] => []
  | p :: rest => if N.eqb (post_id p) o then p' :: rest else p :: replacePost o p' rest
  end.

Fixpoint removePost (o : N) (l : list BlogPost) : list BlogPost :=
  match l with
  | [] => []
  | p :: rest => if N.eqb (post_id p) o then rest else p :: removePost o rest
  end.

(** [BlogPost.findByIdAndUpdate(id, {$set: updated}, {new: true})]: the id
    and the update are cast first; the result is the updated document, or
    [null] when no post has the id. *)
Definition BlogPost_findByIdAndUpdate (id : string) (updated : list (string * value))
  : M (option BlogPost) :=
  log (PostFindByIdAndUpdate id) ;;;
  match castObjectId id, castUpdate updated with
  | None, _ => throw (CastError "_id")
  | _, None => throw (CastError "$set")
  | Some o, Some sets =>
      d <- get_db ;;
      match findPost o (blogposts d) with
      | None => ret None
      | Some p =>
          let p' := assign_all sets p in
          put_db (mkStore (replacePost o p' (blogposts d)) (users d) (nextId d)) ;;;
          ret (Some p')
      end
  end.

Definition BlogPost_findByIdAndRemove (id : string) : M (option BlogPost) :=
  log (PostFindByIdAndRemove id) ;;;
  match castObjectId id with
  | None => throw (CastError "_id")
  | Some o =>
      d <- get_db ;;
      put_db (mkStore (removePost o (blogposts d)) (users d) (nextId d)) ;;;
      ret (findPost o (blogposts d))
  end.

(* --------------------------------------------------------------------- *)
(** *** The authentication gate (server.js, lines 24 to 50) *)
(* --------------------------------------------------------------------- *)

(** What the verify function hands to passport's callback:
    [callback(err)], or [callback(null, user, info)] where [user] is
    [false] or a document. *)
Inductive verdict : Type :=
| CbError (err : error)
| CbUser (user : option User).

Definition incorrect : verdict := CbUser None.

(** The verify function given to [new BasicStrategy(...)]. *)
Definition basicStrategy (username pw : string) (callback : verdict -> M value) : M unit :=
  detached
    (try_catch
       (_user <- User_findOne username ;;
        valid <- match _user with
                 | None => callback incorrect
                 | Some user => user_call user "validatePassword" pw
                 end ;;
        if negb (truthy valid)
        then done (callback incorrect)
        else done (callback (CbUser _user)))
       (fun err => done (callback (CbError err)))).

(** passport with the one strategy and no session.  [fail] answers 401,
    [error] passes the error to Express, [success] calls the next handler
    of the route. *)
Definition strategy_fail : M value :=
  respond 401 (Text "Unauthorized") ;;; ret VUndefined.

Definition strategy_error (err : error) : M value :=
  finalhandler err ;;; ret VUndefined.

Definition verified (next : User -> M unit) (v : verdict) : M value :=
  match v with
  | CbError err => strategy_error err
  | CbUser None => strategy_fail
  | CbUser (Some user) => express_route (next user) ;;; ret VUndefined
  end.

(** [passport.authenticate('basic', {session: false})] on the credentials
    of the Authorization header, if there is one.  passport-http fails the
    request itself when the user id or the password is empty. *)
Definition authenticate (credentials : option (string * string)) (next : User -> M unit)
  : M unit :=
  match credentials with
  | None => done strategy_fail
  | Some (userid, pw) =>
      if String.eqb userid "" || String.eqb pw ""
      then done strategy_fail
      else basicStrategy userid pw (verified next)
  end.

(** What passport-http reads in the Authorization header before it calls
    [authenticate] with credentials or without: a header of fewer than two
    parts, or whose decoded second part has no colon, is a bad request; a
    header that is not there, or whose scheme is not Basic, gives no
    credentials. *)
Definition basicCredentials (header : option string) : nat + option (string * string) :=
  match header with
  | None => inr None
  | Some authorization =>
      if String.eqb authorization "" then inr None
      else
        match split " " authorization with
        | scheme :: second :: _ =>
            if negb (testBasic scheme) then inr None
            else
              match split ":" (atob second) with
              | userid :: pw :: _ => inr (Some (userid, pw))
              | _ => inl 400
              end
        | _ => inl 400
        end
  end.

(** [this.fail(400)] *)
Definition strategy_fail_400 : M value :=
  respond 400 (Text "Bad Request") ;;; ret VUndefined.

(** [passport.authenticate('basic', {session: false})] on the header as it
    comes. *)
Definition authenticate_header (header : option string) (next : User -> M unit) : M unit :=
  match basicCredentials header with
  | inl _ => done strategy_fail_400
  | inr credentials => authenticate credentials next
  end.

(* --------------------------------------------------------------------- *)
(** *** The route handlers (server.js, lines 52 to 213) *)
(* --------------------------------------------------------------------- *)

(** [app.get('/posts')] *)
Definition getPosts : M unit :=
  detached
    (try_catch
       (posts <- BlogPost_find ;;
        done (res_json 200 (VArr (map post_apiRepr posts))))
       (fun err => done (res_json 500 (message "error" "something went terribly wrong")))).

(** [post.apiRepr()] where [post] is a document or [null]. *)
Definition call_apiRepr (post : option BlogPost) : M value :=
  match post with
  | None => throw (TypeError "Cannot read property 'apiRepr' of null")
  | Some p => ret (post_apiRepr p)
  end.

(** [app.get('/posts/:id')] *)
Definition getPost (id : string) : M unit :=
  detached
    (try_catch
       (post <- BlogPost_findById id ;;
        repr <- call_apiRepr post ;;
        done (res_json 200 repr))
       (fun err => done (res_json 500 (message "error" "something went horribly awry")))).

(** The loop over [requiredFields]: the first field that is not in the
    body. *)
Fixpoint firstMissing (fields : list string) (b : value) : M (option string) :=
  match fields with
  | [] => ret None
  | f :: rest =>
      present <- lift (js_in f b) ;;
      if negb present then ret (Some f) else firstMissing rest b
  end.

(** [app.post('/posts')] *)
Definition postPosts (now : Z) (b : value) : M unit :=
  missing <- firstMissing ["title"; "content"] b ;;
  match missing with
  | Some f => done (res_send 400 ("Missing `" ++ f ++ "` in request body"))
  | None =>
      vTitle <- lift (js_get b "title") ;;
      vContent <- lift (js_get b "content") ;;
      vAuthor <- lift (js_get b "author") ;;
      detached
        (try_catch
           (blogPost <- BlogPost_create now vTitle vContent vAuthor ;;
            done (res_json 201 (post_apiRepr blogPost)))
           (fun err => done (res_json 500 (message "error" "Something went wrong"))))
  end.

(** [app.post('/users')].  Where the source returns from inside the first
    [then], what it returns (the response object) is the [hash] of the
    second. *)
Definition postUsers (salt : string) (b : value) : M unit :=
  if negb (truthy b) then done (res_json 400 (message "message" "Empty request body"))
  else
    present <- lift (js_in "userName" b) ;;
    if negb present then done (res_json 422 (message "message" "Missing username"))
    else
      vUserName <- lift (js_get b "userName") ;;
      vPassword <- lift (js_get b "password") ;;
      vFirstName <- lift (js_get b "firstName") ;;
      vLastName <- lift (js_get b "lastName") ;;
      match vUserName with
      | VStr rawName =>
          let name := trim rawName in
          if String.eqb name "" then done (res_json 422 (message "message" "Username is nonexistent"))
          else if negb (truthy vPassword) then done (res_json 422 (message "message" "Missing password"))
          else
            match vPassword with
            | VStr rawPassword =>
                let pw := trim rawPassword in
                if String.eqb pw "" then done (res_json 422 (message "message" "password is nonexistent"))
                else
                  detached
                    (try_catch
                       (count <- User_count name ;;
                        hash <- (if (0 <? count)%nat
                                 then res_json 400 (message "message" "This username already exists")
                                 else User_hashPassword salt pw) ;;
                        newUser <- User_create (VStr name) hash vFirstName vLastName ;;
                        done (res_json 201 (user_apiRepr newUser)))
                       (fun err => done (res_json 500 (message "message" "This is a catch error"))))
            | _ => done (res_json 422 (message "message" "password must be a string"))
            end
      | _ => done (res_json 422 (message "message" "Username must be a string"))
      end.

(** [app.delete('/posts/:id')] *)
Definition deletePost (id : string) : M unit :=
  detached
    (try_catch
       (BlogPost_findByIdAndRemove id ;;;
        done (res_json 204 (message "message" "success")))
       (fun err => done (res_json 500 (message "error" "something went terribly wrong")))).

(** The [forEach] over [updateableFields]. *)
Fixpoint collectUpdates (fields : list string) (b : value) : M (list (string * value)) :=
  match fields with
  | [] => ret []
  | f :: rest =>
      present <- lift (js_in f b) ;;
      if present
      then v <- lift (js_get b f) ;;
           more <- collectUpdates rest b ;;
           ret ((f, v) :: more)
      else collectUpdates rest b
  end.

(** [req.params.id && req.body.id && req.params.id === req.body.id] *)
Definition idsMatch (id : string) (b : value) : M bool :=
  if negb (truthy (VStr id)) then ret false
  else
    bodyId <- lift (js_get b "id") ;;
    ret (truthy bodyId && strict_eq_str id bodyId).

(** [app.put('/posts/:id')].  The 400 of the first statement is sent and
    the handler goes on. *)
Definition putPost (id : string) (b : value) : M unit :=
  same <- idsMatch id b ;;
  (if negb same
   then done (res_json 400 (message "error" "Request path id and request body id values must match"))
   else ret tt) ;;;
  updated <- collectUpdates ["title"; "content"; "author"] b ;;
  detached
    (try_catch
       (updatedPost <- BlogPost_findByIdAndUpdate id updated ;;
        repr <- call_apiRepr updatedPost ;;
        done (res_json 201 repr))
       (fun err => done (res_json 500 (message "message" "Something went wrong")))).

(** [app.delete('/:id')]: the handler names [BlogPosts], which is not
    defined, and throws before it does anything. *)
Definition deleteById (id : string) : M unit :=
  throw (ReferenceError "BlogPosts is not defined").

(** [app.use('*')] *)
Definition notFound : M unit :=
  done (res_json 404 (message "message" "Not Found")).

(* --------------------------------------------------------------------- *)
(** *** Routing *)
(* --------------------------------------------------------------------- *)

(** The handler of a route, after the gate. *)
Definition handler (r : request) : M unit :=
  match target r with
  | GET_posts => getPosts
  | GET_posts_id id => getPost id
  | POST_posts => postPosts (now r) (req_body r)
  | POST_users => postUsers (salt r) (req_body r)
  | DELETE_posts_id id => deletePost id
  | PUT_posts_id id => putPost id (req_body r)
  | DELETE_id id => deleteById id
  | Unmatched => notFound
  end.

Definition serve (r : request) : M unit :=
  if protected (target r)
  then authenticate (credentials r) (fun _ => handler r)
  else express_route (handler r).

(** The server on a request whose Authorization header is still to be
    read: [header] is the header, and the credentials of [r] play no
    part. *)
Definition receive (header : option string) (r : request) : M unit :=
  if protected (target r)
  then authenticate_header header (fun _ => handler r)
  else express_route (handler r).

(** What runs once the gate has let the request through (the [success]
    case of [verified]): the handler, as a route of Express. *)
Definition behind_gate (r : request) : M unit :=
  express_route (handler r).

(** Running an action for one request on a store: the state at the end. *)
Definition run (m : M unit) (d : store) : state :=
  snd (m (mkState d None [])).


(* --------------------------------------------------------------------- *)
(** *** The validation order of the specification *)
(* --------------------------------------------------------------------- *)

(** The checks of the registration endpoint as the specification lists
    them (section 4.4), in its order, each with the status the
    specification gives it.  The messages are those of server.js; they tell
    which check answered. *)
Inductive check : Type :=
| BodyNonEmpty
| UserNamePresent
| UserNameIsText
| UserNameNonBlank
| PasswordPresent
| PasswordIsText
| PasswordNonBlank.

Definition spec_checks : list check :=
  [ BodyNonEmpty; UserNamePresent; UserNameIsText; UserNameNonBlank;
    PasswordPresent; PasswordIsText; PasswordNonBlank ].

Definition spec_status (c : check) : nat :=
  match c with
  | BodyNonEmpty => 400
  | _ => 422
  end.

Definition check_message (c : check) : string :=
  match c with
  | BodyNonEmpty => "Empty request body"
  | UserNamePresent => "Missing username"
  | UserNameIsText => "Username must be a string"
  | UserNameNonBlank => "Username is nonexistent"
  | PasswordPresent => "Missing password"
  | PasswordIsText => "password must be a string"
  | PasswordNonBlank => "password is nonexistent"
  end.

(** The value of a field of the body, [undefined] when there is none. *)
Definition property (b : value) (k : string) : value :=
  match js_get b k with
  | inr v => v
  | inl _ => VUndefined
  end.

Definition nonBlank (v : value) : bool :=
  match v with
  | VStr s => negb (String.eqb (trim s) "")
  | _ => false
  end.

Definition holds (c : check) (b : value) : bool :=
  match c with
  | BodyNonEmpty => truthy b
  | UserNamePresent => match js_in "userName" b with inr present => present | inl _ => false end
  | UserNameIsText => isString (property b "userName")
  | UserNameNonBlank => nonBlank (property b "userName")
  | PasswordPresent => truthy (property b "password")
  | PasswordIsText => isString (property b "password")
  | PasswordNonBlank => nonBlank (property b "password")
  end.

(** First failure wins. *)
Definition spec_first_failure (b : value) : option check :=
  find (fun c => negb (holds c b)) spec_checks.

(** What [req.body] is when the handler runs: the JSON body parser of
    server.js (line 20) leaves an object or an array there, and the object
    without properties when the request has no body. *)
Definition parsedBody (b : value) : bool :=
  match b with
  | VObj _ | VArr _ => true
  | _ => false
  end.

Definition emptyRequestBody : value := VObj [].

(** A value that is a string, [null] or [undefined], as the path the
    schema stores for it; an author that is not given, or is an object
    whose two names are such values.  The schema casts them as they
    are. *)
Definition asField (v : value) : option field :=
  match v with
  | VUndefined => Some Absent
  | VNull => Some Null
  | VStr s => Some (Txt s)
  | _ => None
  end.

Definition asAuthor (v : value) : option Author :=
  match v with
  | VUndefined => Some (mkAuthor Absent Absent)
  | VObj props =>
      match asField (match assoc "firstName" props with Some x => x | None => VUndefined end),
            asField (match assoc "lastName" props with Some x => x | None => VUndefined end) with
      | Some f, Some l => Some (mkAuthor f l)
      | _, _ => None
      end
  | _ => None
  end.

(* --------------------------------------------------------------------- *)
(** *** The process (server.js, lines 215 to 259) *)
(* --------------------------------------------------------------------- *)

(** The process: whether the mongoose connection is open, and the variable
    [server], which is not set before [runServer] has listened and then
    holds an http server that is listening or not. *)
Record process : Type := mkProcess {
  connected : bool;
  server : option bool
}.

Inductive rejection : Type :=
| ConnectError
| ListenError
| ServerUndefined
| ServerNotRunning.

Inductive settled : Type :=
| Resolved
| Rejected (why : rejection).

(** [runServer()], where the environment decides whether
    [mongoose.connect] calls back with an error and whether the server
    emits ['error'] instead of listening.  [server] is assigned as soon as
    [app.listen] returns. *)
Definition runServer (connectFails listenFails : bool) (p : process)
  : settled * process :=
  if connectFails then (Rejected ConnectError, p)
  else if listenFails then (Rejected ListenError, mkProcess false (Some false))
  else (Resolved, mkProcess true (Some true)).

(** [closeServer()]: [mongoose.disconnect()] first, then [server.close],
    which throws when [server] is not set and calls back with an error
    when the server is not listening. *)
Definition closeServer (p : process) : settled * process :=
  match server p with
  | None => (Rejected ServerUndefined, mkProcess false None)
  | Some true => (Resolved, mkProcess false (Some false))
  | Some false => (Rejected ServerNotRunning, mkProcess false (Some false))
  end.

(* ===================================================================== *)
(** ** Properties *)
(* ===================================================================== *)

(** *** Trimming *)

Lemma append_assoc (x y z : string) : (x ++ y) ++ z = x ++ y ++ z.
Proof.
  induction x as [|c x IH]; simpl; [reflexivity | now rewrite IH].
Qed.

Lemma append_empty (x : string) : x ++ "" = x.
Proof.
  induction x as [|c x IH]; simpl; [reflexivity | now rewrite IH].
Qed.

Lemma length_append (x y : string) :
  String.length (x ++ y) = String.length x + String.length y.
Proof.
  induction x as [|c x IH]; simpl; [reflexivity | now rewrite IH].
Qed.

Lemma trimEnd_keep (c : ascii) (s : string) :
  isWhiteSpace c = false -> trimEnd (String c s) = String c (trimEnd s).
Proof.
  intros Hc. simpl. rewrite Hc. destruct (trimEnd s); reflexivity.
Qed.

Lemma trimEnd_app (x y : string) :
  trimEnd y <> "" -> trimEnd (x ++ y) = x ++ trimEnd y.
Proof.
  intros Hy. induction x as [|c x IH]; simpl.
  - reflexivity.
  - rewrite IH. destruct (x ++ trimEnd y) eqn:E.
    + destruct x; simpl in E; [contradiction | discriminate].
    + reflexivity.
Qed.

Lemma trimStart_keeps_suffix (s t : string) :
  trimStart t = t -> t <> "" ->
  exists x, trimStart (s ++ " " ++ t) = x ++ t.
Proof.
  intros Ht Hne. induction s as [|c s IH]; simpl.
  - exists "". destruct t; [contradiction | exact Ht].
  - destruct (isWhiteSpace c).
    + exact IH.
    + exists (String c s ++ " "). rewrite append_assoc. reflexivity.
Qed.

Lemma trim_undefined_first (s : string) :
  trim ("undefined " ++ s) = "undefined" ++ trimEnd (" " ++ s).
Proof.
  unfold trim. cbn [append trimStart]. 
  change (isWhiteSpace "u") with false. cbv iota.
  repeat (rewrite trimEnd_keep by reflexivity; f_equal).
Qed.

Lemma trim_undefined_last (s : string) :
  exists x, trim (s ++ " " ++ "undefined") = x ++ "undefined".
Proof.
  destruct (trimStart_keeps_suffix s "undefined") as [x Hx];
    [reflexivity | discriminate |].
  exists x. unfold trim. rewrite Hx.
  rewrite trimEnd_app; [reflexivity | discriminate].
Qed.

(** *** The derived author string *)

(** C10.  A post with neither name has the author string
    ["undefined undefined"] in its public representation, which is not the
    empty string; a post with exactly one of the two names absent has an
    author string that contains ["undefined"]: the template writes the
    missing name out before the string is trimmed. *)
Theorem authorName_of_absent_names (p : BlogPost) :
  js_get (post_apiRepr p) "author" = inr (VStr (authorName p)) /\
  (firstName (author p) = Absent -> lastName (author p) = Absent ->
   authorName p = "undefined undefined" /\ authorName p <> "") /\
  (firstName (author p) = Absent -> lastName (author p) <> Absent ->
   includes "undefined" (authorName p)) /\
  (firstName (author p) <> Absent -> lastName (author p) = Absent ->
   includes "undefined" (authorName p)).
Proof.
  split; [reflexivity |].
  unfold authorName. repeat split.
  - rewrite H, H0. reflexivity.
  - rewrite H, H0. discriminate.
  - intros Hf _. rewrite Hf.
    change (interpolate Absent ++ " " ++ interpolate (lastName (author p)))
      with ("undefined " ++ interpolate (lastName (author p))).
    rewrite trim_undefined_first.
    exists "", (trimEnd (" " ++ interpolate (lastName (author p)))). reflexivity.
  - intros _ Hl. rewrite Hl.
    destruct (trim_undefined_last (interpolate (firstName (author p)))) as [x Hx].
    change (interpolate Absent) with "undefined". rewrite Hx.
    exists x, "". reflexivity.
Qed.


(** *** The authentication gate *)

(** Unfolding the monad and the store calls. *)
Ltac exec :=
  unfold run, express_route, detached, done, res_json, res_send, try_catch,
    bind, ret, throw, lift, log, get_db, put_db, respond, finalhandler;
  simpl.

(** No user document has a [validatePassword]: the call throws. *)
Lemma validatePassword_is_not_a_function (u : User) (pw : string) (st : state) :
  user_call u "validatePassword" pw st
  = (Thrown (TypeError "validatePassword is not a function"), st).
Proof. reflexivity. Qed.

Lemma authenticate_no_header (next : User -> M unit) (d : store) :
  run (authenticate None next) d
  = mkState d (Some (mkResponse 401 (Text "Unauthorized"))) [].
Proof. reflexivity. Qed.

Lemma authenticate_empty_credentials (userid pw : string) (next : User -> M unit) (d : store) :
  String.eqb userid "" || String.eqb pw "" = true ->
  run (authenticate (Some (userid, pw)) next) d
  = mkState d (Some (mkResponse 401 (Text "Unauthorized"))) [].
Proof.
  intros H. unfold authenticate. rewrite H. reflexivity.
Qed.

(** A user name that is not in the store: the first [then] answers 401,
    the second calls back once more and throws, the [catch] passes the
    error on, and the response stays. *)
Lemma authenticate_unknown_user (userid pw : string) (next : User -> M unit) (d : store) :
  String.eqb userid "" || String.eqb pw "" = false ->
  find (fun x => String.eqb (userName x) userid) (users d) = None ->
  run (authenticate (Some (userid, pw)) next) d
  = mkState d (Some (mkResponse 401 (Text "Unauthorized"))) [UserFindOne userid].
Proof.
  intros H Hfind. unfold authenticate. rewrite H.
  unfold basicStrategy, User_findOne. exec. rewrite Hfind. reflexivity.
Qed.

Lemma authenticate_stored_user (userid pw : string) (u : User) (next : User -> M unit) (d : store) :
  String.eqb userid "" || String.eqb pw "" = false ->
  find (fun x => String.eqb (userName x) userid) (users d) = Some u ->
  run (authenticate (Some (userid, pw)) next) d
  = mkState d (Some (mkResponse 500 (Text "Internal Server Error"))) [UserFindOne userid].
Proof.
  intros H Hfind. unfold authenticate. rewrite H.
  unfold basicStrategy, User_findOne. exec. rewrite Hfind. reflexivity.
Qed.

(** A protected route without an Authorization header, or with the name
    of no stored user: 401, and the handler does not run. *)
Lemma protected_route_unauthorized (r : request) (d : store) :
  protected (target r) = true ->
  match credentials r with
  | None => True
  | Some (userid, _) => find (fun x => String.eqb (userName x) userid) (users d) = None
  end ->
  sent (run (serve r) d) = Some (mkResponse 401 (Text "Unauthorized")) /\
  db (run (serve r) d) = d.
Proof.
  intros Hp Hc. unfold serve. rewrite Hp.
  destruct (credentials r) as [[userid pw]|].
  - destruct (String.eqb userid "" || String.eqb pw "") eqn:E.
    + now rewrite authenticate_empty_credentials.
    + now rewrite authenticate_unknown_user.
  - now rewrite authenticate_no_header.
Qed.

(** C2.  When the user name of the Basic credentials is the name of a
    stored user, the call of [validatePassword] throws whatever the
    password is (the document has no such method), the gate never calls
    the handler, and the request is answered 500, or 401 when passport
    itself refuses an empty password: the state at the end does not depend
    on the handler, and the store is as it was.  This holds for the gate
    with any handler behind it, and so for every protected route. *)
Theorem stored_user_never_authenticated
    (d : store) (userid pw : string) (u : User) :
  find (fun x => String.eqb (userName x) userid) (users d) = Some u ->
  let refused :=
    if String.eqb userid "" || String.eqb pw ""
    then mkState d (Some (mkResponse 401 (Text "Unauthorized"))) []
    else mkState d (Some (mkResponse 500 (Text "Internal Server Error")))
           [UserFindOne userid] in
  (forall st, exists e, user_call u "validatePassword" pw st = (Thrown e, st)) /\
  (forall next, run (authenticate (Some (userid, pw)) next) d = refused) /\
  (forall r, protected (target r) = true -> credentials r = Some (userid, pw) ->
             run (serve r) d = refused).
Proof.
  intros Hfind refused.
  assert (Hgate : forall next, run (authenticate (Some (userid, pw)) next) d = refused).
  { intros next. unfold refused.
    destruct (String.eqb userid "" || String.eqb pw "") eqn:E.
    - now apply authenticate_empty_credentials.
    - now apply authenticate_stored_user with (u := u). }
  split; [| split].
  - intros st. eexists. apply validatePassword_is_not_a_function.
  - exact Hgate.
  - intros r Hp Hc. unfold serve. rewrite Hp, Hc. apply Hgate.
Qed.

(** *** Registration *)

Lemma count_positive_iff_exists (name : string) (l : list User) :
  (0 <? length (filter (fun u => String.eqb (userName u) name) l))%nat
  = existsb (fun x => String.eqb (userName x) name) l.
Proof.
  induction l as [|u l IH]; simpl; [reflexivity |].
  destruct (String.eqb (userName u) name); simpl; [reflexivity | exact IH].
Qed.

Lemma find_app_fresh (name : string) (l : list User) (more : list User) :
  existsb (fun x => String.eqb (userName x) name) l = false ->
  find (fun x => String.eqb (userName x) name) (l ++ more)
  = find (fun x => String.eqb (userName x) name) more.
Proof.
  induction l as [|u l IH]; simpl; [reflexivity |].
  destruct (String.eqb (userName u) name); simpl; [discriminate | exact IH].
Qed.

(** Case analysis on what a handler examines, innermost first. *)
Ltac cases :=
  repeat match goal with
  | |- context [match ?x with _ => _ end] =>
      lazymatch x with
      | context [match _ with _ => _ end] => fail
      | _ =>
          lazymatch type of x with
          | (_ * _)%type => fail
          | _ => destruct x eqn:?; exec
          end
      end
  end.

Ltac open_postUsers r Ht :=
  unfold serve, handler; rewrite Ht; simpl;
  unfold postUsers, User_count, User_create, User_hashPassword;
  destruct (req_body r); exec;
  rewrite ?count_positive_iff_exists.

(** X24.  For every body the JSON parser can leave, an object or an
    array, the registration endpoint answers with the first check of the
    specification's list that fails, in its order: a missing [userName],
    one that is no string, one that is blank once trimmed, a missing
    (falsy) [password], one that is no string, one that is blank once
    trimmed, each 422 with the message of its check.  The store is as it
    was and no store call has been made. *)
Theorem registration_validation_order (r : request) (d : store) (c : check) :
  target r = POST_users ->
  parsedBody (req_body r) = true ->
  spec_first_failure (req_body r) = Some c ->
  run (serve r) d
  = mkState d (Some (mkResponse (spec_status c) (Json (message "message" (check_message c))))) [].
Proof.
  intros Ht Hp Hc. revert Hp Hc. unfold spec_first_failure, holds, property, nonBlank.
  open_postUsers r Ht.
  all: cases.
  all: try discriminate.
  all: try (intros _ Hc; injection Hc as <-; reflexivity).
Qed.

(** A body the parser leaves is never the empty body of the handler's
    first check: the answer "Empty request body" is never given. *)
Lemma parsed_body_is_not_empty (b : value) :
  parsedBody b = true -> holds BodyNonEmpty b = true.
Proof.
  destruct b; simpl; (discriminate || reflexivity).
Qed.

Lemma empty_body_answer_is_never_given (r : request) (d : store) :
  target r = POST_users ->
  parsedBody (req_body r) = true ->
  sent (run (serve r) d)
  <> Some (mkResponse 400 (Json (message "message" "Empty request body"))).
Proof.
  intros Ht Hp. revert Hp.
  open_postUsers r Ht.
  all: try discriminate.
  all: intros _; cases; discriminate.
Qed.

(** What a registration request does to the store: nothing, and then the
    answer is not 201; or one user is added, with the trimmed name and the
    hash of the trimmed password, and the answer is 201 with the public
    representation of that user. *)
Lemma registration_outcomes (r : request) (d : store) :
  target r = POST_users ->
  let st := run (serve r) d in
  (db st = d /\ forall resp, sent st = Some resp -> status resp <> 201) \/
  (exists rawName rawPw ff fl,
      js_get (req_body r) "userName" = inr (VStr rawName) /\
      js_get (req_body r) "password" = inr (VStr rawPw) /\
      trim rawName <> "" /\
      existsb (fun x => String.eqb (userName x) (trim rawName)) (users d) = false /\
      let u := mkUser (nextId d) (trim rawName)
                 (bcrypt_hash (salt r) 10 (trim rawPw)) ff fl in
      db st = mkStore (blogposts d) (users d ++ [u]) (N.succ (nextId d)) /\
      sent st = Some (mkResponse 201 (Json (user_apiRepr u))) /\
      calls st = [UserCount (trim rawName); UserCreate]).
Proof.
  intros Ht st. subst st. destruct d as [posts0 users0 next0].
  open_postUsers r Ht.
  all: cases.
  all: try (left; split; [reflexivity | intros resp [= <-]; discriminate]).
  all: try match goal with
            | H : (0 <? _)%nat = _ |- _ => rewrite count_positive_iff_exists in H
            end.
  all: try congruence.
  all: right; do 4 eexists; repeat split; try reflexivity; try eassumption.
  all: now apply String.eqb_neq.
Qed.

(** C3.  A registration request either stores nothing, and then its answer
    is not 201, or stores one user.  The [password] of that user is the
    output of bcrypt on the trimmed password of the request, so, bcrypt
    never returning its input and never returning a string with white
    space at an end, it is neither the submitted password nor the trimmed
    one; a lookup by the name finds that user; and the body of the 201 is
    the public representation, with the keys [userName], [firstName],
    [lastName] and no [password]. *)
Theorem registration_stores_only_the_hash (r : request) (d : store) :
  (forall s n p, bcrypt_hash s n p <> p) ->
  (forall s n p, trim (bcrypt_hash s n p) = bcrypt_hash s n p) ->
  target r = POST_users ->
  let st := run (serve r) d in
  (users (db st) = users d /\
   forall resp, sent st = Some resp -> status resp <> 201) \/
  (exists rawPw u,
      js_get (req_body r) "password" = inr (VStr rawPw) /\
      users (db st) = (users d ++ [u])%list /\
      find (fun x => String.eqb (userName x) (userName u)) (users (db st)) = Some u /\
      password u = bcrypt_hash (salt r) 10 (trim rawPw) /\
      password u <> rawPw /\
      password u <> trim rawPw /\
      sent st = Some (mkResponse 201 (Json (user_apiRepr u))) /\
      keys (user_apiRepr u) = ["userName"; "firstName"; "lastName"] /\
      js_in "password" (user_apiRepr u) = inr false).
Proof.
  intros Hfix Htrim Ht st.
  destruct (registration_outcomes r d Ht) as [[Hdb Hst] | (rawName & rawPw & ff & fl & Hn & Hp & Hne & Hnew & Hdb & Hsent & Hcalls)].
  - left. split; [subst st; now rewrite Hdb | exact Hst].
  - right. exists rawPw. eexists. subst st. rewrite Hdb, Hsent. simpl.
    repeat split; try reflexivity; try assumption.
    + rewrite find_app_fresh; [simpl; now rewrite String.eqb_refl | exact Hnew].
    + intros E. simpl in E. pose proof (Htrim (salt r) 10 (trim rawPw)) as T.
      rewrite E in T. rewrite T in E. exact (Hfix _ _ _ E).
    + apply Hfix.
Qed.


Lemma existsb_app_last (name : string) (l : list User) (u : User) :
  userName u = name ->
  existsb (fun x => String.eqb (userName x) name) (l ++ [u]) = true.
Proof.
  intros <-. rewrite existsb_app. simpl. rewrite String.eqb_refl.
  now rewrite orb_true_r.
Qed.

(** A valid registration request for a name that is taken: the count is
    positive, the 400 goes out, and the insertion the chain still attempts
    is refused. *)
Lemma registration_of_taken_name (r : request) (d : store) (rawName : string) :
  target r = POST_users ->
  js_get (req_body r) "userName" = inr (VStr rawName) ->
  spec_first_failure (req_body r) = None ->
  existsb (fun x => String.eqb (userName x) (trim rawName)) (users d) = true ->
  run (serve r) d
  = mkState d
      (Some (mkResponse 400 (Json (message "message" "This username already exists"))))
      [UserCount (trim rawName); UserCreate].
Proof.
  intros Ht Hn Hv Hex. revert Hn Hv.
  unfold spec_first_failure, holds, property, nonBlank.
  destruct d as [posts0 users0 next0]. simpl in Hex.
  open_postUsers r Ht.
  all: try discriminate.
  cases.
  all: try discriminate.
  all: intros [= ->] _.
  all: try match goal with
            | H : (0 <? _)%nat = _ |- _ => rewrite count_positive_iff_exists in H
            end.
  all: try congruence.
Qed.

(** C6.  Two registration requests in sequence with the same [userName],
    the first answered 201 and the second passing the validation checks:
    the second is answered 400, "This username already exists".  Its first
    store call is the count of the users with the name, which is positive;
    the store is as the first request left it. *)
Theorem second_registration_rejected (r1 r2 : request) (d : store) :
  target r1 = POST_users ->
  target r2 = POST_users ->
  (exists resp, sent (run (serve r1) d) = Some resp /\ status resp = 201) ->
  js_get (req_body r2) "userName" = js_get (req_body r1) "userName" ->
  spec_first_failure (req_body r2) = None ->
  let d1 := db (run (serve r1) d) in
  let st2 := run (serve r2) d1 in
  sent st2
  = Some (mkResponse 400 (Json (message "message" "This username already exists"))) /\
  db st2 = d1 /\
  exists name,
    calls st2 = [UserCount name; UserCreate] /\
    (0 < length (filter (fun u => String.eqb (userName u) name) (users d1)))%nat.
Proof.
  intros Ht1 Ht2 (resp & Hsent & H201) Hsame Hvalid d1 st2.
  destruct (registration_outcomes r1 d Ht1)
    as [[_ Hnot] | (rawName & rawPw & ff & fl & Hn & _ & _ & _ & Hdb & _ & _)].
  - exfalso. exact (Hnot resp Hsent H201).
  - rewrite Hn in Hsame.
    assert (Hex : existsb (fun x => String.eqb (userName x) (trim rawName)) (users d1) = true).
    { subst d1. rewrite Hdb. simpl. now apply existsb_app_last. }
    subst st2. rewrite (registration_of_taken_name r2 d1 rawName Ht2 Hsame Hvalid Hex).
    simpl. repeat split. exists (trim rawName). split; [reflexivity |].
    apply Nat.ltb_lt. now rewrite count_positive_iff_exists.
Qed.

(** *** Posts *)

Lemma behind_gate_is_success (r : request) (u : User) :
  verified (fun _ => handler r) (CbUser (Some u)) = (behind_gate r ;;; ret VUndefined).
Proof. reflexivity. Qed.

Ltac open_postPosts r Ht :=
  unfold behind_gate, handler; rewrite Ht;
  unfold postPosts, BlogPost_create, castAuthor; simpl;
  destruct (req_body r); exec.


(** C7, as amended.  A POST /posts request that the gate has let through:
    when [title] is not in the body, or [title] is and [content] is not,
    the answer is 400 with the message that names the first missing field,
    and nothing is stored (no store call is made); when the schema casts
    the title to a string that is not empty, the content is in the body and
    the schema casts the content and the author, the post is stored and the
    answer is 201 with a representation whose [title] and [content] are
    the submitted ones as cast and whose [author] is the first name, a
    space and the last name as cast, trimmed.  A title or a content that
    is a string or [null] is cast to itself, and an author that is not
    given, or is an object whose [firstName] and [lastName] are each a
    string, [null] or not given, is cast name by name. *)
Theorem post_creation (r : request) (d : store) :
  target r = POST_posts ->
  let b := req_body r in
  let st := run (behind_gate r) d in
  (js_in "title" b = inr false ->
   st = mkState d (Some (mkResponse 400 (Text "Missing `title` in request body"))) []) /\
  (js_in "title" b = inr true -> js_in "content" b = inr false ->
   st = mkState d (Some (mkResponse 400 (Text "Missing `content` in request body"))) []) /\
  (forall t fc a,
      castString (property b "title") = Some (Txt t) -> t <> "" ->
      js_in "content" b = inr true ->
      castString (property b "content") = Some fc ->
      castAuthor (property b "author") = Some a ->
      let doc := mkBlogPost (nextId d) a (Txt t) fc (now r) in
      st = mkState (mkStore (blogposts d ++ [doc]) (users d) (N.succ (nextId d)))
             (Some (mkResponse 201 (Json (post_apiRepr doc)))) [PostCreate] /\
      js_get (post_apiRepr doc) "title" = inr (VStr t) /\
      js_get (post_apiRepr doc) "content" = inr (field_value fc) /\
      js_get (post_apiRepr doc) "author"
      = inr (VStr (trim (interpolate (firstName a) ++ " " ++ interpolate (lastName a))))) /\
  (forall v f, asField v = Some f -> castString v = Some f /\ field_value f = v) /\
  (forall v a, asAuthor v = Some a -> castAuthor v = Some a).
Proof.
  intros Ht b st. subst b st. unfold property. destruct d as [posts0 users0 next0].
  repeat match goal with |- _ /\ _ => split end.
  4:{ intros v f. destruct v; simpl; try discriminate; intros [= <-]; split; reflexivity. }
  4:{ intros v a. unfold asAuthor, castAuthor.
      destruct v as [ | | ? | ? | ? | items | props | ? | ? | ]; try discriminate; [trivial |].
      destruct (match assoc "firstName" props with Some x => x | None => VUndefined end);
        simpl; try discriminate;
        destruct (match assoc "lastName" props with Some x => x | None => VUndefined end);
        simpl; try discriminate; trivial. }
  all: unfold behind_gate, handler; rewrite Ht;
    unfold postPosts, BlogPost_create; simpl;
    destruct (req_body r) as [ | | ? | ? | ? | items | props | ? | ? | ]; exec;
    try discriminate; try reflexivity.
  - destruct (assoc "title" props); [discriminate |]. reflexivity.
  - destruct (assoc "title" props); [| discriminate].
    destruct (assoc "content" props); [discriminate |]. reflexivity.
  - intros t fc a Htitle Hne Hin Hc Ha.
    destruct (assoc "title" props) as [vt|]; [| discriminate].
    destruct (assoc "content" props) as [vc|]; [| discriminate].
    simpl. rewrite Htitle, Hc, Ha. simpl.
    apply String.eqb_neq in Hne. rewrite Hne. repeat split.
Qed.

Lemma findPost_replacePost (o o' : N) (p p' : BlogPost) (l : list BlogPost) :
  findPost o l = Some p ->
  post_id p' = o ->
  findPost o' (replacePost o p' l) = if N.eqb o' o then Some p' else findPost o' l.
Proof.
  unfold findPost. intros Hfind Hid. induction l as [|a l IH]; simpl in *.
  - discriminate.
  - destruct (N.eqb_spec (post_id a) o) as [Ha | Ha]; simpl.
    + rewrite Hid. rewrite (N.eqb_sym o o').
      destruct (N.eqb_spec o' o) as [-> | Hne]; [reflexivity |].
      destruct (N.eqb_spec (post_id a) o'); [congruence | reflexivity].
    + rewrite (IH Hfind).
      destruct (N.eqb_spec (post_id a) o') as [Ha' | Ha']; [| reflexivity].
      destruct (N.eqb_spec o' o); [congruence | reflexivity].
Qed.

Lemma length_replacePost (o : N) (p' : BlogPost) (l : list BlogPost) :
  length (replacePost o p' l) = length l.
Proof.
  induction l as [|a l IH]; simpl; [reflexivity |].
  destruct (N.eqb (post_id a) o); simpl; [reflexivity | now rewrite IH].
Qed.

Lemma findPost_id (o : N) (p : BlogPost) (l : list BlogPost) :
  findPost o l = Some p -> post_id p = o.
Proof.
  unfold findPost. intros H. apply find_some in H. now apply N.eqb_eq.
Qed.

Ltac open_putPost r Ht :=
  unfold behind_gate, handler; rewrite Ht;
  unfold putPost, idsMatch, BlogPost_findByIdAndUpdate, call_apiRepr; simpl;
  destruct (req_body r); exec.

(** C8.  A PUT /posts/:id request that the gate has let through and whose
    body carries the id of the path: the users are as they were, no post
    is added or removed, and every post of the store is still found under
    its id, with the same [_id] and [created]; its [title], [content] and
    [author] are as before when the field is not in the body, and the post
    is wholly as before when the path does not name it.  When the answer
    is 201, each of the three fields that is in the body has, in the post
    the path names, the value of the body as the schema casts it. *)
Theorem update_frame (r : request) (d : store) (id : string) :
  target r = PUT_posts_id id ->
  id <> "" ->
  js_get (req_body r) "id" = inr (VStr id) ->
  let b := req_body r in
  let st := run (behind_gate r) d in
  users (db st) = users d /\
  length (blogposts (db st)) = length (blogposts d) /\
  forall o p,
    findPost o (blogposts d) = Some p ->
    exists p',
      findPost o (blogposts (db st)) = Some p' /\
      post_id p' = post_id p /\
      created p' = created p /\
      (js_in "title" b = inr false -> title p' = title p) /\
      (js_in "content" b = inr false -> content p' = content p) /\
      (js_in "author" b = inr false -> author p' = author p) /\
      (castObjectId id <> Some o -> p' = p) /\
      ((exists resp, sent st = Some resp /\ status resp = 201) ->
       castObjectId id = Some o ->
       (js_in "title" b = inr true -> castString (property b "title") = Some (title p')) /\
       (js_in "content" b = inr true -> castString (property b "content") = Some (content p')) /\
       (js_in "author" b = inr true -> castAuthor (property b "author") = Some (author p'))).
Proof.
  intros Ht Hid Hbody b st. subst b st. revert Hbody. unfold property.
  destruct d as [posts0 users0 next0].
  open_putPost r Ht.
  all: try discriminate.
  intros Hbody. destruct (assoc "id" props) as [v|] eqn:Eid; [| discriminate].
  injection Hbody as ->. simpl.
  rewrite String.eqb_refl. apply String.eqb_neq in Hid. rewrite Hid. simpl.
  unfold castEntry.
  cases.
  all: repeat match goal with
              | H : option_map _ ?x = Some _ |- _ =>
                  destruct x eqn:?; simpl in H; [injection H as <- | discriminate H]
              end.
  all: split; [reflexivity | split; [now rewrite ?length_replacePost |]].
  all: intros o p Hfind.
  all: try (exists p; repeat (split; [solve [auto] |]);
            intros (resp & Hsent & H201); injection Hsent as <-; discriminate H201).
  all: match goal with
       | Hb : findPost ?n _ = Some ?b |- _ =>
           rewrite (findPost_replacePost n o b)
             by (assumption || (unfold assign_all; simpl; now apply findPost_id with (l := posts0)));
           destruct (N.eqb_spec o n) as [-> | Hne];
           [ rewrite Hb in Hfind; injection Hfind as <-
           | exists p; repeat (split; [solve [auto] |]); intros _ [= E]; congruence ]
       end.
  all: eexists; split; [reflexivity |]; unfold assign_all; simpl.
  all: repeat split; intros; try discriminate; try congruence; try reflexivity.
Qed.


(** *** Where the handlers leave the specification *)

(** GET /posts/:id with an id that is an ObjectId and names no post:
    [findById] gives [null], [post.apiRepr()] throws, and the [catch]
    answers 500. *)
Lemma get_missing_post_is_500 (r : request) (d : store) (id : string) (o : N) :
  target r = GET_posts_id id ->
  castObjectId id = Some o ->
  findPost o (blogposts d) = None ->
  run (behind_gate r) d
  = mkState d
      (Some (mkResponse 500 (Json (message "error" "something went horribly awry"))))
      [PostFindById id].
Proof.
  intros Ht Ho Hfind. unfold behind_gate, handler. rewrite Ht.
  unfold getPost, BlogPost_findById, call_apiRepr. exec.
  rewrite Ho. simpl. rewrite Hfind. reflexivity.
Qed.

(** PUT /posts/:id with a body whose id is not the id of the path and
    which carries a title: the 400 is sent, and the title of the post the
    path names is set all the same. *)
Lemma put_mismatch_still_updates
    (r : request) (d : store) (id : string) (props : list (string * value))
    (o : N) (p : BlogPost) (t : string) :
  target r = PUT_posts_id id ->
  req_body r = VObj props ->
  assoc "id" props <> Some (VStr id) ->
  assoc "title" props = Some (VStr t) ->
  assoc "content" props = None ->
  assoc "author" props = None ->
  castObjectId id = Some o ->
  findPost o (blogposts d) = Some p ->
  run (behind_gate r) d
  = mkState
      (mkStore
         (replacePost o (mkBlogPost (post_id p) (author p) (Txt t) (content p) (created p))
            (blogposts d))
         (users d) (nextId d))
      (Some (mkResponse 400
               (Json (message "error" "Request path id and request body id values must match"))))
      [PostFindByIdAndUpdate id].
Proof.
  intros Ht Hb Hid Htitle Hcontent Hauthor Ho Hfind.
  unfold behind_gate, handler. rewrite Ht, Hb.
  unfold putPost, idsMatch, BlogPost_findByIdAndUpdate, call_apiRepr. exec.
  rewrite Htitle, Hcontent, Hauthor. simpl. rewrite Ho.
  assert (Hno : (if negb (String.eqb id "") then
                   truthy (match assoc "id" props with Some x => x | None => VUndefined end)
                   && strict_eq_str id (match assoc "id" props with Some x => x | None => VUndefined end)
                 else false) = false).
  { destruct (negb (String.eqb id "")); [| reflexivity].
    destruct (assoc "id" props) as [v|]; [| reflexivity].
    destruct v; simpl; rewrite ?andb_false_r; try reflexivity.
    destruct (String.eqb_spec id s) as [-> | Hne]; [congruence |].
    now rewrite andb_false_r. }
  destruct (negb (String.eqb id "")); simpl in Hno |- *.
  - destruct (assoc "id" props) as [v|]; simpl in Hno |- *.
    + rewrite Hno. simpl. rewrite Hfind. reflexivity.
    + rewrite Hfind. reflexivity.
  - rewrite Hfind. reflexivity.
Qed.

(* ===================================================================== *)
(** ** Further properties of the handlers *)
(* ===================================================================== *)

(** *** What each handler does, in one equation or one case split *)

Lemma getPosts_run (r : request) (d : store) :
  target r = GET_posts ->
  run (behind_gate r) d
  = mkState d (Some (mkResponse 200 (Json (VArr (map post_apiRepr (blogposts d))))))
      [PostFind].
Proof.
  intros Ht. unfold behind_gate, handler. rewrite Ht. reflexivity.
Qed.

Lemma getPost_run (r : request) (d : store) (id : string) :
  target r = GET_posts_id id ->
  run (behind_gate r) d
  = mkState d
      (Some
         match castObjectId id with
         | Some o =>
             match findPost o (blogposts d) with
             | Some p => mkResponse 200 (Json (post_apiRepr p))
             | None => mkResponse 500 (Json (message "error" "something went horribly awry"))
             end
         | None => mkResponse 500 (Json (message "error" "something went horribly awry"))
         end)
      [PostFindById id].
Proof.
  intros Ht. unfold behind_gate, handler. rewrite Ht.
  unfold getPost, BlogPost_findById, call_apiRepr. exec.
  destruct (castObjectId id) as [o|]; simpl; [| reflexivity].
  destruct (findPost o (blogposts d)); reflexivity.
Qed.

Lemma deletePost_run (r : request) (d : store) (id : string) :
  target r = DELETE_posts_id id ->
  run (behind_gate r) d
  = match castObjectId id with
    | Some o =>
        mkState (mkStore (removePost o (blogposts d)) (users d) (nextId d))
          (Some (mkResponse 204 (Json (message "message" "success"))))
          [PostFindByIdAndRemove id]
    | None =>
        mkState d
          (Some (mkResponse 500 (Json (message "error" "something went terribly wrong"))))
          [PostFindByIdAndRemove id]
    end.
Proof.
  intros Ht. unfold behind_gate, handler. rewrite Ht.
  unfold deletePost, BlogPost_findByIdAndRemove. exec.
  destruct (castObjectId id) as [o|]; reflexivity.
Qed.

Lemma deleteById_run (r : request) (d : store) (id : string) :
  target r = DELETE_id id ->
  run (behind_gate r) d
  = mkState d (Some (mkResponse 500 (Text "Internal Server Error"))) [].
Proof.
  intros Ht. unfold behind_gate, handler. rewrite Ht. reflexivity.
Qed.

Lemma notFound_run (r : request) (d : store) :
  target r = Unmatched ->
  run (behind_gate r) d
  = mkState d (Some (mkResponse 404 (Json (message "message" "Not Found")))) [].
Proof.
  intros Ht. unfold behind_gate, handler. rewrite Ht. reflexivity.
Qed.

(** POST /posts stores one post and answers 201 with it, or stores nothing
    and answers 400 or 500. *)
Lemma postPosts_outcomes (r : request) (d : store) :
  target r = POST_posts ->
  let st := run (behind_gate r) d in
  (db st = d /\
   exists resp, sent st = Some resp /\ (status resp = 400 \/ status resp = 500)) \/
  (exists a ft fc,
      let doc := mkBlogPost (nextId d) a ft fc (now r) in
      castString (property (req_body r) "title") = Some ft /\
      castString (property (req_body r) "content") = Some fc /\
      castAuthor (property (req_body r) "author") = Some a /\
      required ft <> None /\
      db st = mkStore (blogposts d ++ [doc]) (users d) (N.succ (nextId d)) /\
      sent st = Some (mkResponse 201 (Json (post_apiRepr doc))) /\
      calls st = [PostCreate]).
Proof.
  intros Ht st. subst st. unfold property. destruct d as [posts0 users0 next0].
  unfold behind_gate, handler; rewrite Ht.
  unfold postPosts, BlogPost_create; simpl.
  destruct (req_body r); exec.
  all: cases.
  all: try (left; split; [reflexivity | eexists; split; [reflexivity | simpl; auto]]).
  all: right; do 3 eexists; repeat split; try eassumption; try reflexivity; congruence.
Qed.

Lemma assign_all_keeps_id (sets : list assignment) (p : BlogPost) :
  post_id (assign_all sets p) = post_id p /\
  created (assign_all sets p) = created p.
Proof.
  unfold assign_all. revert p.
  induction sets as [|a sets IH]; intros p; simpl; [split; reflexivity |].
  destruct (IH (assign a p)) as [Hid Hcreated]. rewrite Hid, Hcreated.
  destruct a; split; reflexivity.
Qed.

(** The id check and the collection of the fields to update read the body
    and nothing else. *)
Lemma idsMatch_pure (id : string) (b : value) (st : state) :
  exists o, idsMatch id b st = (o, st) /\
            (id <> "" -> js_get b "id" = inr (VStr id) -> o = Ok true).
Proof.
  unfold idsMatch, truthy. destruct (String.eqb id "") eqn:E0; simpl.
  - eexists. split; [reflexivity |]. intros H. apply String.eqb_eq in E0. now elim H.
  - destruct (js_get b "id") as [e | v] eqn:E; exec.
    + eexists. split; [reflexivity | discriminate].
    + eexists. split; [reflexivity |]. intros _ [= ->]. simpl.
      now rewrite String.eqb_refl, E0.
Qed.

Lemma collectUpdates_pure (fields : list string) (b : value) (st : state) :
  exists o, collectUpdates fields b st = (o, st).
Proof.
  induction fields as [|f fields IH]; simpl.
  - eexists. reflexivity.
  - destruct IH as [o IH]. exec.
    destruct (js_in f b) as [e | present]; simpl; [eexists; reflexivity |].
    destruct present; [| eexists; exact IH].
    destruct (js_get b f) as [e | v]; simpl; [eexists; reflexivity |].
    rewrite IH. destruct o; eexists; reflexivity.
Qed.

Lemma putPost_outcomes (r : request) (d : store) (id : string) :
  target r = PUT_posts_id id ->
  let st := run (behind_gate r) d in
  exists resp,
    sent st = Some resp /\
    (id <> "" -> js_get (req_body r) "id" = inr (VStr id) -> status resp <> 400) /\
    ((status resp = 500 /\ db st = d) \/
     (status resp = 400 /\ db st = d) \/
     (exists o p sets,
         castObjectId id = Some o /\
         findPost o (blogposts d) = Some p /\
         db st = mkStore (replacePost o (assign_all sets p) (blogposts d)) (users d) (nextId d) /\
         (resp = mkResponse 201 (Json (post_apiRepr (assign_all sets p))) \/
          status resp = 400))).
Proof.
  intros Ht st. subst st. destruct d as [posts0 users0 next0].
  unfold behind_gate, handler; rewrite Ht.
  unfold putPost, run, express_route, try_catch, bind.
  destruct (idsMatch_pure id (req_body r) (mkState (mkStore posts0 users0 next0) None []))
    as (o & -> & Hmatch).
  pose proof (collectUpdates_pure ["title"; "content"; "author"] (req_body r)) as Hcu.
  remember (collectUpdates ["title"; "content"; "author"] (req_body r)) as cu eqn:Ecu.
  clear Ecu.
  destruct o as [same | e].
  2:{ exec. eexists. split; [reflexivity |]. split; [| left; split; reflexivity].
      intros H1 H2. specialize (Hmatch H1 H2). discriminate. }
  unfold BlogPost_findByIdAndUpdate, call_apiRepr.
  destruct same; exec.
  - destruct (Hcu (mkState (mkStore posts0 users0 next0) None [])) as (o & ->).
    destruct o as [updated | e]; simpl.
    2:{ eexists. split; [reflexivity |]. split; [discriminate | left; split; reflexivity]. }
    destruct (castObjectId id) as [oid|], (castUpdate updated) as [sets|]; simpl.
    2-4: eexists; (split; [reflexivity |]); (split; [discriminate | left; split; reflexivity]).
    destruct (findPost oid posts0) as [p|] eqn:Hfind; simpl.
    + eexists. split; [reflexivity |]. split; [discriminate |].
      right. right. exists oid, p, sets.
      split; [reflexivity | split; [exact Hfind | split; [reflexivity | now left]]].
    + eexists. split; [reflexivity |]. split; [discriminate | left; split; reflexivity].
  - assert (Hno : id <> "" -> js_get (req_body r) "id" = inr (VStr id) -> False).
    { intros H1 H2. specialize (Hmatch H1 H2). discriminate. }
    match goal with
    | |- context [cu ?s] => destruct (Hcu s) as (o & ->)
    end.
    destruct o as [updated | e]; simpl.
    2:{ eexists. split; [reflexivity |]. split; [| right; left; split; reflexivity].
        intros H1 H2. elim (Hno H1 H2). }
    destruct (castObjectId id) as [oid|], (castUpdate updated) as [sets|]; simpl.
    2-4: eexists; (split; [reflexivity |]);
         (split; [intros H1 H2; elim (Hno H1 H2) | right; left; split; reflexivity]).
    destruct (findPost oid posts0) as [p|] eqn:Hfind; simpl.
    + eexists. split; [reflexivity |]. split; [intros H1 H2; elim (Hno H1 H2) |].
      right. right. exists oid, p, sets.
      split; [reflexivity | split; [exact Hfind | split; [reflexivity | now right]]].
    + eexists. split; [reflexivity |].
      split; [intros H1 H2; elim (Hno H1 H2) | right; left; split; reflexivity].
Qed.

(** *** The gate, for every request *)


(** X2.  A user who has just registered cannot pass the gate: on a
    protected route, the trimmed name of a registration answered 201, with
    any password that is not empty, is answered 500. *)
Theorem registered_user_is_refused
    (r1 r2 : request) (d : store) (rawName pw : string) :
  target r1 = POST_users ->
  (exists resp, sent (run (serve r1) d) = Some resp /\ status resp = 201) ->
  js_get (req_body r1) "userName" = inr (VStr rawName) ->
  protected (target r2) = true ->
  credentials r2 = Some (trim rawName, pw) ->
  pw <> "" ->
  let d1 := db (run (serve r1) d) in
  run (serve r2) d1
  = mkState d1 (Some (mkResponse 500 (Text "Internal Server Error")))
      [UserFindOne (trim rawName)].
Proof.
  intros Ht1 (resp & Hsent & H201) Hname Hp Hc Hpw d1.
  destruct (registration_outcomes r1 d Ht1)
    as [[_ Hnot] | (rawName' & rawPw & ff & fl & Hn & _ & Hne & Hfresh & Hdb & _ & _)].
  - exfalso. exact (Hnot resp Hsent H201).
  - rewrite Hname in Hn. injection Hn as <-.
    unfold serve. rewrite Hp, Hc.
    eapply authenticate_stored_user.
    + apply String.eqb_neq in Hne, Hpw. now rewrite Hne, Hpw.
    + subst d1. rewrite Hdb. simpl. rewrite find_app_fresh by exact Hfresh.
      simpl. rewrite String.eqb_refl. reflexivity.
Qed.

(** *** Reading posts *)

(** X3.  GET /posts behind the gate answers 200 with one representation
    for each stored post, in the order of the store, each with the keys
    [id], [author], [content], [title], [created]; the store is as it
    was. *)
Theorem posts_are_listed (r : request) (d : store) :
  target r = GET_posts ->
  let st := run (behind_gate r) d in
  db st = d /\
  exists items,
    sent st = Some (mkResponse 200 (Json (VArr items))) /\
    length items = length (blogposts d) /\
    (forall i p, nth_error (blogposts d) i = Some p ->
                 nth_error items i = Some (post_apiRepr p)) /\
    Forall (fun v => keys v = ["id"; "author"; "content"; "title"; "created"]) items.
Proof.
  intros Ht st. subst st. rewrite (getPosts_run r d Ht). simpl.
  split; [reflexivity |]. eexists. split; [reflexivity |].
  split; [apply length_map |]. split.
  - intros i p Hi. now apply map_nth_error.
  - apply Forall_map. apply Forall_forall. reflexivity.
Qed.

(** *** Deleting posts *)

Lemma findPost_absent (o : N) (l : list BlogPost) :
  ~ In o (map post_id l) -> findPost o l = None.
Proof.
  unfold findPost. induction l as [|a l IH]; simpl; [reflexivity |].
  intros Hnot. destruct (N.eqb_spec (post_id a) o) as [Ha | Ha].
  - elim Hnot. now left.
  - apply IH. intros Hin. apply Hnot. now right.
Qed.

Lemma findPost_removePost_other (o o' : N) (l : list BlogPost) :
  o' <> o -> findPost o' (removePost o l) = findPost o' l.
Proof.
  unfold findPost. intros Hne. induction l as [|a l IH]; simpl; [reflexivity |].
  destruct (N.eqb_spec (post_id a) o) as [Ha | Ha]; simpl.
  - destruct (N.eqb_spec (post_id a) o'); [congruence | reflexivity].
  - now rewrite IH.
Qed.

Lemma findPost_removePost_same (o : N) (l : list BlogPost) :
  NoDup (map post_id l) -> findPost o (removePost o l) = None.
Proof.
  intros Hnd. induction l as [|a l IH]; simpl; [reflexivity |].
  inversion Hnd as [| x xs Hnotin Hnd']; subst.
  destruct (N.eqb_spec (post_id a) o) as [Ha | Ha].
  - subst o. now apply findPost_absent.
  - unfold findPost in *. simpl.
    destruct (N.eqb_spec (post_id a) o); [congruence | now apply IH].
Qed.

Lemma removePost_absent (o : N) (l : list BlogPost) :
  findPost o l = None -> removePost o l = l.
Proof.
  unfold findPost. induction l as [|a l IH]; simpl; [reflexivity |].
  destruct (N.eqb (post_id a) o); [discriminate |].
  intros H. now rewrite IH.
Qed.

Lemma length_removePost (o : N) (l : list BlogPost) :
  length (removePost o l)
  = match findPost o l with
    | Some _ => pred (length l)
    | None => length l
    end.
Proof.
  unfold findPost. induction l as [|a l IH]; simpl; [reflexivity |].
  destruct (N.eqb (post_id a) o); simpl; [reflexivity |].
  rewrite IH. destruct (find _ l) eqn:E; [| reflexivity].
  destruct l; [discriminate | reflexivity].
Qed.

(** X4.  DELETE /posts/:id behind the gate, where the posts of the store
    have distinct ids: the answer is 204 whether the post exists or not;
    afterwards no post has the id, every other post is found as before,
    there is one post fewer exactly when a post had the id, and the users
    are as they were. *)
Theorem delete_removes_the_post (r : request) (d : store) (id : string) (o : N) :
  target r = DELETE_posts_id id ->
  castObjectId id = Some o ->
  NoDup (map post_id (blogposts d)) ->
  let st := run (behind_gate r) d in
  sent st = Some (mkResponse 204 (Json (message "message" "success"))) /\
  findPost o (blogposts (db st)) = None /\
  (forall o', o' <> o -> findPost o' (blogposts (db st)) = findPost o' (blogposts d)) /\
  length (blogposts (db st))
  = match findPost o (blogposts d) with
    | Some _ => pred (length (blogposts d))
    | None => length (blogposts d)
    end /\
  users (db st) = users d.
Proof.
  intros Ht Ho Hnd st. subst st. rewrite (deletePost_run r d id Ht), Ho. simpl.
  split; [reflexivity |]. split; [now apply findPost_removePost_same |].
  split; [intros o' Hne; now apply findPost_removePost_other |].
  split; [apply length_removePost | reflexivity].
Qed.

(** X5.  Deleting twice is deleting once: a second DELETE of the same id
    leaves the store as the first left it and is answered as the first
    was. *)
Theorem delete_is_idempotent (r : request) (d : store) (id : string) :
  target r = DELETE_posts_id id ->
  NoDup (map post_id (blogposts d)) ->
  let st1 := run (behind_gate r) d in
  let st2 := run (behind_gate r) (db st1) in
  db st2 = db st1 /\ sent st2 = sent st1.
Proof.
  intros Ht Hnd st1 st2. subst st1 st2.
  rewrite (deletePost_run r d id Ht).
  destruct (castObjectId id) as [o|] eqn:Ho; simpl.
  - rewrite (deletePost_run r _ id Ht), Ho. simpl.
    rewrite (removePost_absent o (removePost o (blogposts d)))
      by now apply findPost_removePost_same.
    split; reflexivity.
  - rewrite (deletePost_run r d id Ht), Ho. split; reflexivity.
Qed.

(** X6.  After DELETE /posts/:id, GET /posts/:id for the same id is
    answered 500: the post is gone, and the handler has no answer for a
    post that is not there. *)
Theorem deleted_post_is_not_served
    (r1 r2 : request) (d : store) (id : string) (o : N) :
  target r1 = DELETE_posts_id id ->
  target r2 = GET_posts_id id ->
  castObjectId id = Some o ->
  NoDup (map post_id (blogposts d)) ->
  let d1 := db (run (behind_gate r1) d) in
  run (behind_gate r2) d1
  = mkState d1
      (Some (mkResponse 500 (Json (message "error" "something went horribly awry"))))
      [PostFindById id].
Proof.
  intros Ht1 Ht2 Ho Hnd d1. subst d1.
  rewrite (getPost_run r2 _ id Ht2), Ho.
  rewrite (deletePost_run r1 d id Ht1), Ho. simpl.
  now rewrite findPost_removePost_same.
Qed.

(** *** Writing a post and reading it back *)

Lemma findPost_app_fresh (o : N) (l : list BlogPost) (p : BlogPost) :
  findPost o l = None -> post_id p = o -> findPost o (l ++ [p]) = Some p.
Proof.
  unfold findPost. intros Hnone Hid. induction l as [|a l IH]; simpl in *.
  - rewrite Hid, N.eqb_refl. reflexivity.
  - destruct (N.eqb (post_id a) o); [discriminate | now apply IH].
Qed.

(** X7.  A created post can be read back: the representation of a 201
    of POST /posts carries the id the store gave the post, and when that
    id was new to the store, GET /posts/:id with it answers 200 with the
    same representation. *)
Theorem created_post_is_served
    (r1 r2 : request) (d : store) (id : string) (v : value) :
  target r1 = POST_posts ->
  sent (run (behind_gate r1) d) = Some (mkResponse 201 (Json v)) ->
  findPost (nextId d) (blogposts d) = None ->
  target r2 = GET_posts_id id ->
  castObjectId id = Some (nextId d) ->
  js_get v "id" = inr (VObjectId (nextId d)) /\
  sent (run (behind_gate r2) (db (run (behind_gate r1) d)))
  = Some (mkResponse 200 (Json v)).
Proof.
  intros Ht1 Hsent Hfresh Ht2 Ho.
  destruct (postPosts_outcomes r1 d Ht1)
    as [(_ & resp & Hs & Hst) | (a & ft & fc & _ & _ & _ & _ & Hdb & Hs & _)].
  - rewrite Hsent in Hs. injection Hs as <-. simpl in Hst. destruct Hst; discriminate.
  - rewrite Hsent in Hs. injection Hs as ->.
    split; [reflexivity |].
    rewrite (getPost_run r2 _ id Ht2), Ho, Hdb. simpl.
    rewrite (findPost_app_fresh (nextId d)) by (assumption || reflexivity).
    reflexivity.
Qed.

(** X8.  After a PUT /posts/:id answered 201, GET /posts/:id for the
    same id answers 200 with the representation the 201 carried. *)
Theorem updated_post_is_served
    (r1 r2 : request) (d : store) (id : string) (v : value) :
  target r1 = PUT_posts_id id ->
  sent (run (behind_gate r1) d) = Some (mkResponse 201 (Json v)) ->
  target r2 = GET_posts_id id ->
  sent (run (behind_gate r2) (db (run (behind_gate r1) d)))
  = Some (mkResponse 200 (Json v)).
Proof.
  intros Ht1 Hsent Ht2.
  destruct (putPost_outcomes r1 d id Ht1) as (resp & Hs & _ & Hcases).
  rewrite Hsent in Hs. injection Hs as <-. simpl in Hcases.
  destruct Hcases as [[H _] | [[H _] | (o & p & sets & Ho & Hfind & Hdb & Hresp)]];
    try discriminate.
  destruct Hresp as [Hresp | Hresp]; [| discriminate].
  injection Hresp as ->.
  rewrite (getPost_run r2 _ id Ht2), Ho, Hdb. simpl.
  rewrite (findPost_replacePost o o p) by
    (assumption || (rewrite (proj1 (assign_all_keeps_id sets p)); now apply findPost_id with (l := blogposts d))).
  now rewrite N.eqb_refl.
Qed.

(** X9.  PUT /posts/:id, with the id of the path in the body, for an id
    that names no post or is no ObjectId: the answer is 500 and nothing is
    created, the store is as it was. *)
Theorem update_of_missing_post_is_500 (r : request) (d : store) (id : string) :
  target r = PUT_posts_id id ->
  id <> "" ->
  js_get (req_body r) "id" = inr (VStr id) ->
  match castObjectId id with
  | Some o => findPost o (blogposts d) = None
  | None => True
  end ->
  let st := run (behind_gate r) d in
  db st = d /\
  exists resp, sent st = Some resp /\ status resp = 500.
Proof.
  intros Ht Hid Hbody Hmissing st. subst st.
  destruct (putPost_outcomes r d id Ht) as (resp & Hs & Hno400 & Hcases).
  specialize (Hno400 Hid Hbody).
  destruct Hcases as [[H Hdb] | [[H _] | (o & p & sets & Ho & Hfind & _)]].
  - split; [exact Hdb | now exists resp].
  - contradiction.
  - rewrite Ho in Hmissing. congruence.
Qed.

(** *** Registration, further *)

(** A registration request is answered, with one of four statuses. *)
Lemma registration_is_answered (r : request) (d : store) :
  target r = POST_users ->
  exists resp,
    sent (run (serve r) d) = Some resp /\
    In (status resp) [201; 400; 422; 500]%nat.
Proof.
  intros Ht. open_postUsers r Ht.
  all: cases.
  all: eexists; split; [reflexivity |]; simpl; auto 6.
Qed.

(** X10.  A registration that passes the validation checks, for a name
    that no user has once it is trimmed, with first and last names the
    schema can cast and a hash that is not empty, stores one user, with
    the trimmed name and the hash of the trimmed password, and answers 201
    with the representation of that user; the count comes before the
    creation. *)
Theorem valid_registration_is_accepted
    (r : request) (d : store) (rawName rawPw : string) (ff fl : field) :
  target r = POST_users ->
  spec_first_failure (req_body r) = None ->
  js_get (req_body r) "userName" = inr (VStr rawName) ->
  js_get (req_body r) "password" = inr (VStr rawPw) ->
  existsb (fun x => String.eqb (userName x) (trim rawName)) (users d) = false ->
  castString (property (req_body r) "firstName") = Some ff ->
  castString (property (req_body r) "lastName") = Some fl ->
  bcrypt_hash (salt r) 10 (trim rawPw) <> "" ->
  let u := mkUser (nextId d) (trim rawName) (bcrypt_hash (salt r) 10 (trim rawPw)) ff fl in
  run (serve r) d
  = mkState (mkStore (blogposts d) (users d ++ [u]) (N.succ (nextId d)))
      (Some (mkResponse 201 (Json (user_apiRepr u))))
      [UserCount (trim rawName); UserCreate].
Proof.
  intros Ht Hv Hn Hp Hfresh Hff Hfl Hhash u. subst u.
  revert Hv Hn Hp Hff Hfl.
  unfold spec_first_failure, holds, property, nonBlank.
  destruct d as [posts0 users0 next0]. simpl in Hfresh.
  apply String.eqb_neq in Hhash.
  open_postUsers r Ht.
  all: try discriminate.
  cases.
  all: try discriminate.
  all: intros _ [= ->] [= ->]; intros.
  all: try match goal with
            | H : (0 <? _)%nat = _ |- _ => rewrite count_positive_iff_exists in H
            end.
  all: try congruence.
Qed.

(** X11.  User names are compared once trimmed: after a registration
    answered 201, the store has a user under the trimmed name, and a valid
    registration whose name has the same trim is answered 400 and stores
    nothing. *)
Theorem names_are_compared_trimmed
    (r1 r2 : request) (d : store) (name1 name2 : string) :
  target r1 = POST_users ->
  target r2 = POST_users ->
  (exists resp, sent (run (serve r1) d) = Some resp /\ status resp = 201) ->
  js_get (req_body r1) "userName" = inr (VStr name1) ->
  js_get (req_body r2) "userName" = inr (VStr name2) ->
  trim name2 = trim name1 ->
  spec_first_failure (req_body r2) = None ->
  let d1 := db (run (serve r1) d) in
  (exists u, In u (users d1) /\ userName u = trim name1) /\
  sent (run (serve r2) d1)
  = Some (mkResponse 400 (Json (message "message" "This username already exists"))) /\
  db (run (serve r2) d1) = d1.
Proof.
  intros Ht1 Ht2 (resp & Hsent & H201) Hn1 Hn2 Htrim Hvalid d1.
  destruct (registration_outcomes r1 d Ht1)
    as [[_ Hnot] | (rawName & rawPw & ff & fl & Hn & _ & _ & _ & Hdb & _ & _)].
  - exfalso. exact (Hnot resp Hsent H201).
  - rewrite Hn1 in Hn. injection Hn as <-.
    assert (Hex : existsb (fun x => String.eqb (userName x) (trim name2)) (users d1) = true).
    { subst d1. rewrite Hdb, Htrim. simpl. now apply existsb_app_last. }
    split.
    + subst d1. rewrite Hdb. simpl. eexists. split; [apply in_or_app; right; now left |].
      reflexivity.
    + rewrite (registration_of_taken_name r2 d1 name2 Ht2 Hn2 Hvalid Hex).
      split; reflexivity.
Qed.

(** *** What the requests keep *)

Lemma protected_route_keeps_store (r : request) (d : store) :
  protected (target r) = true -> db (run (serve r) d) = d.
Proof.
  intros Hp. unfold serve. rewrite Hp.
  destruct (credentials r) as [[userid pw]|].
  - destruct (String.eqb userid "" || String.eqb pw "") eqn:E.
    + now rewrite authenticate_empty_credentials.
    + destruct (find (fun x => String.eqb (userName x) userid) (users d)) as [u|] eqn:Hfind.
      * now rewrite (authenticate_stored_user userid pw u).
      * now rewrite authenticate_unknown_user.
  - now rewrite authenticate_no_header.
Qed.

(** The users after a request that has passed the gate: those before,
    and after a registration perhaps one more, with a new name. *)
Lemma users_after_request (r : request) (d : store) :
  let st := run (behind_gate r) d in
  users (db st) = users d \/
  (target r = POST_users /\
   exists u, users (db st) = (users d ++ [u])%list /\
             existsb (fun x => String.eqb (userName x) (userName u)) (users d) = false).
Proof.
  intros st. subst st. destruct (target r) eqn:Ht.
  - left. now rewrite (getPosts_run r d Ht).
  - left. now rewrite (getPost_run r d id Ht).
  - left. destruct (postPosts_outcomes r d Ht)
      as [[-> _] | (a & ft & fc & _ & _ & _ & _ & -> & _)]; reflexivity.
  - destruct (registration_outcomes r d Ht)
      as [[Hdb _] | (rawName & rawPw & ff & fl & _ & _ & _ & Hfresh & Hdb & _ & _)].
    + left. unfold behind_gate. unfold serve in Hdb. rewrite Ht in Hdb. simpl in Hdb.
      now rewrite Hdb.
    + right. split; [reflexivity |]. unfold behind_gate.
      unfold serve in Hdb. rewrite Ht in Hdb. simpl in Hdb. rewrite Hdb. simpl.
      eexists. split; [reflexivity | exact Hfresh].
  - left. rewrite (deletePost_run r d id Ht). now destruct (castObjectId id).
  - left. destruct (putPost_outcomes r d id Ht) as (resp & _ & _ & Hcases).
    destruct Hcases as [[_ ->] | [[_ ->] | (o & p & sets & _ & _ & -> & _)]]; reflexivity.
  - left. now rewrite (deleteById_run r d id Ht).
  - left. now rewrite (notFound_run r d Ht).
Qed.

Lemma NoDup_names_app (l : list User) (u : User) :
  NoDup (map userName l) ->
  existsb (fun x => String.eqb (userName x) (userName u)) l = false ->
  NoDup (map userName (l ++ [u])).
Proof.
  intros Hnd Hfresh. rewrite map_app. simpl.
  apply NoDup_app.
  - exact Hnd.
  - repeat constructor. intros [].
  - intros name Hin [<- | []].
    apply in_map_iff in Hin as (x & Hx & Hin).
    assert (H : existsb (fun x => String.eqb (userName x) (userName u)) l = true).
    { apply existsb_exists. exists x. split; [exact Hin | now apply String.eqb_eq]. }
    congruence.
Qed.

(** X12.  No request makes two users share a name: when the names of the
    stored users are distinct before a request, they are distinct after
    it, whether the request goes through the gate or is taken behind
    it. *)
Theorem user_names_stay_unique (r : request) (d : store) :
  NoDup (map userName (users d)) ->
  NoDup (map userName (users (db (run (serve r) d)))) /\
  NoDup (map userName (users (db (run (behind_gate r) d)))).
Proof.
  intros Hnd.
  assert (Hbehind : NoDup (map userName (users (db (run (behind_gate r) d))))).
  { destruct (users_after_request r d) as [-> | (_ & u & -> & Hfresh)];
      [exact Hnd | now apply NoDup_names_app]. }
  split; [| exact Hbehind].
  destruct (protected (target r)) eqn:Hp.
  - now rewrite protected_route_keeps_store.
  - unfold serve. rewrite Hp. exact Hbehind.
Qed.

(** X13.  The handlers keep to their collection: behind the gate, no
    request removes or changes a user, only a registration adds one, and
    the posts are as they were after every request that is no POST, PUT or
    DELETE of posts. *)
Theorem handlers_keep_to_their_collection (r : request) (d : store) :
  let st := run (behind_gate r) d in
  (exists more, users (db st) = (users d ++ more)%list) /\
  (target r <> POST_users -> users (db st) = users d) /\
  match target r with
  | POST_posts | PUT_posts_id _ | DELETE_posts_id _ => True
  | _ => blogposts (db st) = blogposts d
  end.
Proof.
  intros st. subst st. split; [| split].
  - destruct (users_after_request r d) as [-> | (_ & u & -> & _)].
    + exists []. now rewrite app_nil_r.
    + now exists [u].
  - intros Hne. destruct (users_after_request r d) as [-> | (Ht & _)];
      [reflexivity | contradiction].
  - destruct (target r) eqn:Ht; try exact I.
    + now rewrite (getPosts_run r d Ht).
    + now rewrite (getPost_run r d id Ht).
    + destruct (registration_outcomes r d Ht)
        as [[Hdb _] | (rawName & rawPw & ff & fl & _ & _ & _ & _ & Hdb & _ & _)];
        unfold serve in Hdb; rewrite Ht in Hdb; simpl in Hdb;
        unfold behind_gate; now rewrite Hdb.
    + now rewrite (deleteById_run r d id Ht).
    + now rewrite (notFound_run r d Ht).
Qed.

(** X14.  Behind the gate every request is answered, and the status is
    one the handler of its route sends: 200 for the list; 200 or 500 for
    one post; 201, 400 or 500 for a creation; 201, 400, 422 or 500 for a
    registration; 204 or 500 for a deletion; 201, 400 or 500 for an
    update; 500 for DELETE /:id, whose handler throws; 404 for any route
    the server does not have.  No route of posts answers 404. *)
Theorem handlers_answer_within_their_statuses (r : request) (d : store) :
  exists resp,
    sent (run (behind_gate r) d) = Some resp /\
    In (status resp)
      match target r with
      | GET_posts => [200]
      | GET_posts_id _ => [200; 500]
      | POST_posts => [201; 400; 500]
      | POST_users => [201; 400; 422; 500]
      | DELETE_posts_id _ => [204; 500]
      | PUT_posts_id _ => [201; 400; 500]
      | DELETE_id _ => [500]
      | Unmatched => [404]
      end%nat.
Proof.
  destruct (target r) eqn:Ht.
  - rewrite (getPosts_run r d Ht). eexists. split; [reflexivity | now left].
  - rewrite (getPost_run r d id Ht). eexists. split; [reflexivity |].
    destruct (castObjectId id) as [o|]; [destruct (findPost o (blogposts d)) |];
      simpl; auto.
  - destruct (postPosts_outcomes r d Ht)
      as [(_ & resp & Hs & [H | H]) | (a & ft & fc & _ & _ & _ & _ & _ & Hs & _)].
    + exists resp. split; [exact Hs | rewrite H; simpl; auto].
    + exists resp. split; [exact Hs | rewrite H; simpl; auto].
    + eexists. split; [exact Hs | now left].
  - destruct (registration_is_answered r d Ht) as (resp & Hs & Hin).
    exists resp. split; [| exact Hin].
    unfold serve in Hs. rewrite Ht in Hs. exact Hs.
  - rewrite (deletePost_run r d id Ht).
    destruct (castObjectId id); eexists; (split; [reflexivity | simpl; auto]).
  - destruct (putPost_outcomes r d id Ht) as (resp & Hs & _ & Hcases).
    exists resp. split; [exact Hs |].
    destruct Hcases as [[H _] | [[H _] | (o & p & sets & _ & _ & _ & [-> | H])]];
      try rewrite H; simpl; auto.
  - rewrite (deleteById_run r d id Ht). eexists. split; [reflexivity | now left].
  - rewrite (notFound_run r d Ht). eexists. split; [reflexivity | now left].
Qed.

(** *** Writing posts: all or nothing *)

(** X15.  POST /posts stores a post whole or not at all: with an answer
    other than 201 the store is as it was; with a 201, one post has been
    added after the others, the users are as they were, the body is the
    representation of that post, its id is the one the store had in
    reserve, its date the time of the request, and its title a string that
    is not empty. *)
Theorem post_is_stored_whole_or_not_at_all (r : request) (d : store) :
  target r = POST_posts ->
  let st := run (behind_gate r) d in
  exists resp,
    sent st = Some resp /\
    (status resp <> 201 -> db st = d) /\
    (status resp = 201 ->
     exists doc,
       blogposts (db st) = (blogposts d ++ [doc])%list /\
       users (db st) = users d /\
       body resp = Json (post_apiRepr doc) /\
       post_id doc = nextId d /\
       created doc = now r /\
       exists t, title doc = Txt t /\ t <> "").
Proof.
  intros Ht st. subst st.
  destruct (postPosts_outcomes r d Ht)
    as [(Hdb & resp & Hs & Hst) | (a & ft & fc & _ & _ & _ & Hreq & Hdb & Hs & _)].
  - exists resp. split; [exact Hs |]. split; [intros _; exact Hdb |].
    intros H201. destruct Hst as [H | H]; rewrite H in H201; discriminate.
  - eexists. split; [exact Hs |]. split; [intros H; now elim H |].
    intros _. eexists. rewrite Hdb. simpl. repeat (split; [reflexivity |]).
    destruct ft as [| | t]; simpl in Hreq; try now elim Hreq.
    exists t. split; [reflexivity |]. intros ->. now elim Hreq.
Qed.

(** X16.  PUT /posts/:id with the id of the path in the body is answered
    201 or 500; with a 500 the store is as it was, and with a 201 the body
    is the representation of the post now stored under the id. *)
Theorem update_is_applied_or_store_is_kept (r : request) (d : store) (id : string) :
  target r = PUT_posts_id id ->
  id <> "" ->
  js_get (req_body r) "id" = inr (VStr id) ->
  let st := run (behind_gate r) d in
  exists resp,
    sent st = Some resp /\
    (status resp = 201 \/ status resp = 500) /\
    (status resp = 500 -> db st = d) /\
    (status resp = 201 ->
     exists o p',
       castObjectId id = Some o /\
       findPost o (blogposts (db st)) = Some p' /\
       body resp = Json (post_apiRepr p')).
Proof.
  intros Ht Hid Hbody st. subst st.
  destruct (putPost_outcomes r d id Ht) as (resp & Hs & Hno400 & Hcases).
  specialize (Hno400 Hid Hbody).
  exists resp. split; [exact Hs |].
  destruct Hcases as [[H Hdb] | [[H _] | (o & p & sets & Ho & Hfind & Hdb & [-> | H])]];
    try contradiction.
  - split; [now right |]. split; [intros _; exact Hdb |].
    intros H201. rewrite H in H201. discriminate.
  - split; [now left |]. split; [discriminate |]. intros _.
    exists o, (assign_all sets p). split; [exact Ho |]. split; [| reflexivity].
    rewrite Hdb. simpl.
    rewrite (findPost_replacePost o o p) by
      (assumption || (rewrite (proj1 (assign_all_keeps_id sets p));
                      now apply findPost_id with (l := blogposts d))).
    now rewrite N.eqb_refl.
Qed.

(** X17.  An update does not ask for a title as a creation does: PUT
    /posts/:id with matching ids and a body that carries only a title sets
    the title of the post to that string, the empty string too, and
    answers 201. *)
Theorem update_does_not_ask_for_a_title
    (r : request) (d : store) (id : string) (props : list (string * value))
    (o : N) (p : BlogPost) (t : string) :
  target r = PUT_posts_id id ->
  req_body r = VObj props ->
  id <> "" ->
  assoc "id" props = Some (VStr id) ->
  assoc "title" props = Some (VStr t) ->
  assoc "content" props = None ->
  assoc "author" props = None ->
  castObjectId id = Some o ->
  findPost o (blogposts d) = Some p ->
  let p' := mkBlogPost (post_id p) (author p) (Txt t) (content p) (created p) in
  run (behind_gate r) d
  = mkState
      (mkStore (replacePost o p' (blogposts d)) (users d) (nextId d))
      (Some (mkResponse 201 (Json (post_apiRepr p'))))
      [PostFindByIdAndUpdate id].
Proof.
  intros Ht Hb Hid Hbid Htitle Hcontent Hauthor Ho Hfind p'. subst p'.
  unfold behind_gate, handler. rewrite Ht, Hb.
  unfold putPost, idsMatch, BlogPost_findByIdAndUpdate, call_apiRepr. exec.
  rewrite Hbid, Htitle, Hcontent, Hauthor. simpl.
  apply String.eqb_neq in Hid. rewrite Hid, String.eqb_refl. simpl.
  rewrite Ho. simpl. rewrite Hfind. reflexivity.
Qed.

(** *** Names *)

Lemma length_trimStart (s : string) :
  String.length (trimStart s) <= String.length s.
Proof.
  induction s as [|c s IH]; simpl; [lia |].
  destruct (isWhiteSpace c); simpl; lia.
Qed.

Lemma trimStart_fixed (c : ascii) (s : string) :
  trimStart (String c s) = String c s -> isWhiteSpace c = false.
Proof.
  simpl. destruct (isWhiteSpace c); [| reflexivity].
  intros H. pose proof (length_trimStart s) as L. rewrite H in L. simpl in L. lia.
Qed.

Lemma trimStart_idempotent (s : string) : trimStart (trimStart s) = trimStart s.
Proof.
  induction s as [|c s IH]; simpl; [reflexivity |].
  destruct (isWhiteSpace c) eqn:E; [exact IH |]. simpl. now rewrite E.
Qed.

Lemma trimEnd_cons (c : ascii) (s : string) :
  trimEnd s <> "" -> trimEnd (String c s) = String c (trimEnd s).
Proof.
  intros H. simpl. destruct (trimEnd s); [now elim H | reflexivity].
Qed.

Lemma trimEnd_idempotent (s : string) : trimEnd (trimEnd s) = trimEnd s.
Proof.
  induction s as [|c s IH]; simpl; [reflexivity |].
  destruct (trimEnd s) as [|a t] eqn:E.
  - destruct (isWhiteSpace c) eqn:Ec; simpl; [reflexivity | now rewrite Ec].
  - rewrite trimEnd_cons; rewrite IH; [reflexivity | discriminate].
Qed.

Lemma trim_idempotent (s : string) : trim (trim s) = trim s.
Proof.
  unfold trim.
  assert (H : trimStart (trimEnd (trimStart s)) = trimEnd (trimStart s)).
  { pose proof (trimStart_idempotent s) as Hs.
    destruct (trimStart s) as [|c t]; [reflexivity |].
    apply trimStart_fixed in Hs. rewrite trimEnd_keep by exact Hs.
    simpl. now rewrite Hs. }
  rewrite H. apply trimEnd_idempotent.
Qed.

(** X18.  For a first name that is not empty and does not start with
    white space, and a last name that is not empty and does not end with
    white space, the author string is the first name, a space and the last
    name, as the tests expect. *)
Theorem authorName_of_plain_names (p : BlogPost) (f l : string) :
  firstName (author p) = Txt f ->
  lastName (author p) = Txt l ->
  f <> "" -> trimStart f = f ->
  l <> "" -> trimEnd l = l ->
  authorName p = f ++ " " ++ l.
Proof.
  intros Hf Hl Hfne Hfs Hlne Hle. unfold authorName. rewrite Hf, Hl. simpl.
  unfold trim.
  destruct f as [|c f']; [now elim Hfne |].
  apply trimStart_fixed in Hfs. simpl. rewrite Hfs.
  change (String c (f' ++ String " " l)) with (String c f' ++ String " " l).
  rewrite trimEnd_app.
  - f_equal. simpl. rewrite Hle. destruct l; [now elim Hlne | reflexivity].
  - simpl. rewrite Hle. destruct l; [now elim Hlne | discriminate].
Qed.

(** X19.  The author string has no white space at either end: trimming
    it, at the start, at the end or at both, gives it back. *)
Theorem authorName_is_trimmed (p : BlogPost) :
  trim (authorName p) = authorName p /\
  trimStart (authorName p) = authorName p /\
  trimEnd (authorName p) = authorName p.
Proof.
  unfold authorName.
  set (s := interpolate (firstName (author p)) ++ " " ++ interpolate (lastName (author p))).
  assert (He : trimEnd (trim s) = trim s) by apply trimEnd_idempotent.
  pose proof (trim_idempotent s) as Ht. unfold trim at 1 in Ht.
  split; [apply trim_idempotent |]. split; [| exact He].
  pose proof (length_trimStart (trim s)) as L1.
  assert (L2 : String.length (trimEnd (trimStart (trim s))) <= String.length (trimStart (trim s))).
  { generalize (trimStart (trim s)). intros u. induction u as [|c u IH]; simpl; [lia |].
    destruct (trimEnd u); [destruct (isWhiteSpace c) |]; simpl in *; lia. }
  rewrite Ht in L2.
  assert (Hlen : String.length (trimStart (trim s)) = String.length (trim s)) by lia.
  clear - Hlen. generalize dependent (trim s). intros u. induction u as [|c u IH]; simpl; [reflexivity |].
  destruct (isWhiteSpace c); [| reflexivity].
  intros H. pose proof (length_trimStart u). lia.
Qed.

(** X20.  The names of the stored users stay trimmed and not empty: when
    every stored user has a name that is not empty and is its own trim
    before a request, so has every stored user after it. *)
Theorem stored_names_are_trimmed (r : request) (d : store) :
  let good := fun u : User => userName u <> "" /\ trim (userName u) = userName u in
  Forall good (users d) ->
  Forall good (users (db (run (serve r) d))) /\
  Forall good (users (db (run (behind_gate r) d))).
Proof.
  intros good Hgood.
  assert (Hbehind : Forall good (users (db (run (behind_gate r) d)))).
  { destruct (users_after_request r d) as [-> | (Ht & _)]; [exact Hgood |].
    destruct (registration_outcomes r d Ht)
      as [[Hdb _] | (rawName & rawPw & ff & fl & _ & _ & Hne & _ & Hdb & _ & _)];
      unfold serve in Hdb; rewrite Ht in Hdb; simpl in Hdb;
      unfold behind_gate; rewrite Hdb; [exact Hgood |].
    simpl. apply Forall_app. split; [exact Hgood |].
    repeat constructor; simpl; [exact Hne | apply trim_idempotent]. }
  split; [| exact Hbehind].
  destruct (protected (target r)) eqn:Hp.
  - now rewrite protected_route_keeps_store.
  - unfold serve. rewrite Hp. exact Hbehind.
Qed.

(** *** The process *)

(** X21.  [runServer], started without a connection, leaves none behind
    when it fails: it resolves exactly when neither the connection nor the
    listening fails, and then the connection is open and the server
    listens; when it rejects, the connection is closed; and when the
    connection fails, nothing has changed, no server has been made. *)
Theorem runServer_leaves_no_connection_behind
    (connectFails listenFails : bool) (p : process) :
  connected p = false ->
  let outcome := fst (runServer connectFails listenFails p) in
  let p' := snd (runServer connectFails listenFails p) in
  (outcome = Resolved <-> connectFails = false /\ listenFails = false) /\
  (outcome = Resolved -> connected p' = true /\ server p' = Some true) /\
  (outcome <> Resolved -> connected p' = false) /\
  (connectFails = true -> p' = p).
Proof.
  intros Hc. unfold runServer.
  destruct connectFails, listenFails; simpl; repeat split;
    try discriminate; try tauto; try (intros H; now elim H); intuition discriminate.
Qed.

(** X22.  [closeServer] undoes [runServer]: after a start that resolved
    it resolves, with the connection closed and the server not listening;
    called once more it rejects, the server not running; called before any
    start it rejects, [server] not being set; and in every case the
    connection is closed afterwards. *)
Theorem closeServer_after_runServer (p : process) :
  let started := snd (runServer false false p) in
  closeServer started = (Resolved, mkProcess false (Some false)) /\
  closeServer (snd (closeServer started))
  = (Rejected ServerNotRunning, mkProcess false (Some false)) /\
  (server p = None ->
   closeServer p = (Rejected ServerUndefined, mkProcess false None)) /\
  connected (snd (closeServer p)) = false.
Proof.
  unfold runServer, closeServer. simpl. repeat split.
  - now intros ->.
  - now destruct (server p) as [[|]|].
Qed.

(** The state after a request to a protected route, in full. *)
Lemma protected_route_run (r : request) (d : store) :
  protected (target r) = true ->
  run (serve r) d
  = match credentials r with
    | None => mkState d (Some (mkResponse 401 (Text "Unauthorized"))) []
    | Some (userid, pw) =>
        if String.eqb userid "" || String.eqb pw ""
        then mkState d (Some (mkResponse 401 (Text "Unauthorized"))) []
        else
          match find (fun x => String.eqb (userName x) userid) (users d) with
          | Some _ =>
              mkState d (Some (mkResponse 500 (Text "Internal Server Error")))
                [UserFindOne userid]
          | None =>
              mkState d (Some (mkResponse 401 (Text "Unauthorized")))
                [UserFindOne userid]
          end
    end.
Proof.
  intros Hp. unfold serve. rewrite Hp.
  destruct (credentials r) as [[userid pw]|].
  - destruct (String.eqb userid "" || String.eqb pw "") eqn:E.
    + now rewrite authenticate_empty_credentials.
    + destruct (find (fun x => String.eqb (userName x) userid) (users d)) as [u|] eqn:Hfind.
      * now rewrite (authenticate_stored_user userid pw u).
      * now rewrite authenticate_unknown_user.
  - now rewrite authenticate_no_header.
Qed.

(** X1.  Whatever its Authorization header, a request to a protected route
    (the five routes of posts and DELETE /:id) does not reach its handler:
    the store is as it was, the only store calls are lookups of the user,
    and the answer is 400 when the header is malformed (fewer than two
    parts, or no colon in what its second part decodes to), 500 when the
    header gives a user id and a password that are not empty and the user
    id is the name of a stored user, and 401 in every other case. *)
Theorem protected_routes_answer_no_one
    (header : option string) (r : request) (d : store) :
  protected (target r) = true ->
  let st := run (receive header r) d in
  db st = d /\
  Forall (fun c => exists name, c = UserFindOne name) (calls st) /\
  sent st
  = Some
      match basicCredentials header with
      | inl _ => mkResponse 400 (Text "Bad Request")
      | inr None => mkResponse 401 (Text "Unauthorized")
      | inr (Some (userid, pw)) =>
          if negb (String.eqb userid "" || String.eqb pw "")
             && existsb (fun x => String.eqb (userName x) userid) (users d)
          then mkResponse 500 (Text "Internal Server Error")
          else mkResponse 401 (Text "Unauthorized")
      end.
Proof.
  intros Hp st. subst st. unfold receive, authenticate_header. rewrite Hp.
  destruct (basicCredentials header) as [code | [[userid pw]|]].
  - repeat split. constructor.
  - destruct (String.eqb userid "" || String.eqb pw "") eqn:E.
    + rewrite authenticate_empty_credentials by exact E.
      repeat split. constructor.
    + destruct (find (fun x => String.eqb (userName x) userid) (users d)) as [u|] eqn:Hfind.
      * rewrite (authenticate_stored_user userid pw u) by assumption.
        assert (Hex : existsb (fun x => String.eqb (userName x) userid) (users d) = true).
        { apply existsb_exists. exists u. apply find_some in Hfind. exact Hfind. }
        rewrite Hex. repeat split. repeat constructor. now exists userid.
      * rewrite authenticate_unknown_user by assumption.
        assert (Hex : existsb (fun x => String.eqb (userName x) userid) (users d) = false).
        { apply not_true_is_false. intros H. apply existsb_exists in H as (x & Hin & Hx).
          apply (find_none _ _ Hfind) in Hin. congruence. }
        rewrite Hex. repeat split. repeat constructor. now exists userid.
  - rewrite authenticate_no_header. repeat split. constructor.
Qed.

(** With a header that gives credentials, or none, the server is [serve]
    on the request with those credentials. *)
Lemma receive_is_serve (header : option string) (r : request) :
  basicCredentials header = inr (credentials r) ->
  receive header r = serve r.
Proof.
  intros H. unfold receive, serve, authenticate_header. now rewrite H.
Qed.

End Server.

(* ===================================================================== *)
(** ** The server on the example store *)
(* ===================================================================== *)

Abbreviation example_serve :=
  (serve Example.castOther Example.castNested Example.castObjectId
     Example.bcrypt_hash Example.bcrypt_compare).

Abbreviation example_behind_gate :=
  (behind_gate Example.castOther Example.castNested Example.castObjectId
     Example.bcrypt_hash).

Abbreviation example_receive :=
  (receive Example.castOther Example.castNested Example.castObjectId
     Example.bcrypt_hash Example.bcrypt_compare Example.atob).

(** C1.  On each of the five protected routes, a request with the name of
    a stored user and a password that is not theirs is answered 500, not
    401: the verify function throws where it calls [validatePassword].
    (Without a header, and with the name of no user, the answer is 401:
    [protected_route_unauthorized].) *)
Theorem wrong_password_is_answered_500 :
  find (fun x => String.eqb (userName x) "alice") (users Example.blog) = Some Example.alice /\
  Example.bcrypt_compare "open sesame" (password Example.alice) = false /\
  Forall
    (fun t =>
       run (example_serve (Example.request t (Some ("alice", "open sesame")) (VObj [])))
         Example.blog
       = mkState Example.blog (Some (mkResponse 500 (Text "Internal Server Error")))
           [UserFindOne "alice"])
    Example.protectedRoutes.
Proof.
  split; [reflexivity | split; [reflexivity |]].
  repeat constructor.
Qed.

(** Alice with her own password on GET /posts: refused all the same. *)
Lemma stored_user_never_authenticated_witness :
  find (fun x => String.eqb (userName x) "alice") (users Example.blog) = Some Example.alice /\
  Example.bcrypt_compare "baseball" (password Example.alice) = true /\
  run (example_serve (Example.request GET_posts (Some ("alice", "baseball")) (VObj [])))
    Example.blog
  = mkState Example.blog (Some (mkResponse 500 (Text "Internal Server Error")))
      [UserFindOne "alice"].
Proof.
  split; [reflexivity | split; [reflexivity |]].
  exact (proj2 (proj2
           (stored_user_never_authenticated
              Example.castOther Example.castNested Example.castObjectId
              Example.bcrypt_hash Example.bcrypt_compare
              Example.blog "alice" "baseball" Example.alice eq_refl))
           (Example.request GET_posts (Some ("alice", "baseball")) (VObj []))
           eq_refl eq_refl).
Defined.

(** C4.  PUT /posts/:id with a body whose id is not the id of the path:
    the answer is 400, and the title of the stored post has changed. *)
Theorem put_with_other_id_changes_the_post :
  let r := Example.request (PUT_posts_id Example.firstPostId) None
             (Example.retitle Example.otherId) in
  let st := run (example_behind_gate r) Example.blog in
  sent st
  = Some (mkResponse 400
            (Json (message "error" "Request path id and request body id values must match"))) /\
  map title (blogposts Example.blog) = [Txt "Down the hole"] /\
  map title (blogposts (db st)) = [Txt "cats cats cats"].
Proof.
  repeat split.
Qed.

(** C9.  GET /posts/:id with an id that is an ObjectId and names no post
    is answered 500, not 404. *)
Theorem get_of_missing_post_is_500 :
  let r := Example.request (GET_posts_id Example.otherId) None VUndefined in
  Example.castObjectId Example.otherId = Some 255%N /\
  findPost 255 (blogposts Example.blog) = None /\
  run (example_behind_gate r) Example.blog
  = mkState Example.blog
      (Some (mkResponse 500 (Json (message "error" "something went horribly awry"))))
      [PostFindById Example.otherId].
Proof.
  repeat split.
Qed.

(** C7, as stated, fails: [title] and [content] are both in the body, the
    title is [null], and the answer is 500, not 201. *)
Lemma post_with_null_title_is_500 :
  let r := Example.request POST_posts None Example.nullTitle in
  js_in "title" (req_body r) = inr true /\
  js_in "content" (req_body r) = inr true /\
  run (example_behind_gate r) Example.blog
  = mkState Example.blog
      (Some (mkResponse 500 (Json (message "error" "Something went wrong"))))
      [PostCreate].
Proof.
  repeat split.
Qed.

(** The stand-in for bcrypt never returns its input, nor a string with
    white space at an end. *)
Lemma example_hash_is_not_the_password (s : string) (n : nat) (p : string) :
  Example.bcrypt_hash s n p <> p.
Proof.
  intros E. apply (f_equal String.length) in E.
  unfold Example.bcrypt_hash in E.
  repeat (rewrite length_append in E; simpl in E). lia.
Qed.

Lemma example_hash_is_trimmed (s : string) (n : nat) (p : string) :
  trim (Example.bcrypt_hash s n p) = Example.bcrypt_hash s n p.
Proof.
  unfold Example.bcrypt_hash, trim.
  change (trimStart ("$2a$" ++ ?x)) with ("$2a$" ++ x).
  rewrite <- !append_assoc.
  rewrite trimEnd_app; [reflexivity | discriminate].
Qed.

(** Bob registers on the example store, with the stand-in for bcrypt. *)
Lemma registration_stores_only_the_hash_witness :
  let r := Example.request POST_users None (Example.bob " topsecret ") in
  let st := run (example_serve r) Example.blog in
  (forall s n p, Example.bcrypt_hash s n p <> p) /\
  (forall s n p, trim (Example.bcrypt_hash s n p) = Example.bcrypt_hash s n p) /\
  target r = POST_users /\
  ((users (db st) = users Example.blog /\
    forall resp, sent st = Some resp -> status resp <> 201) \/
   (exists rawPw u,
       js_get (req_body r) "password" = inr (VStr rawPw) /\
       users (db st) = (users Example.blog ++ [u])%list /\
       find (fun x => String.eqb (userName x) (userName u)) (users (db st)) = Some u /\
       password u = Example.bcrypt_hash (salt r) 10 (trim rawPw) /\
       password u <> rawPw /\
       password u <> trim rawPw /\
       sent st = Some (mkResponse 201 (Json (user_apiRepr u))) /\
       keys (user_apiRepr u) = ["userName"; "firstName"; "lastName"] /\
       js_in "password" (user_apiRepr u) = inr false)).
Proof.
  intros r st.
  split; [exact example_hash_is_not_the_password |].
  split; [exact example_hash_is_trimmed |].
  split; [reflexivity |].
  exact (registration_stores_only_the_hash
           Example.castOther Example.castNested Example.castObjectId
           Example.bcrypt_hash Example.bcrypt_compare r Example.blog
           example_hash_is_not_the_password example_hash_is_trimmed eq_refl).
Defined.

(** A body with a name that is blank, and one with a name and no
    password. *)
Lemma registration_validation_order_witness :
  let r := Example.request POST_users None
             (VObj [ ("userName", VStr "  "); ("password", VStr "topsecret") ]) in
  let r' := Example.request POST_users None (VObj [ ("userName", VStr " bob ") ]) in
  (target r = POST_users /\
   parsedBody (req_body r) = true /\
   spec_first_failure (req_body r) = Some UserNameNonBlank /\
   run (example_serve r) Example.blog
   = mkState Example.blog
       (Some (mkResponse 422 (Json (message "message" "Username is nonexistent")))) []) /\
  (target r' = POST_users /\
   parsedBody (req_body r') = true /\
   spec_first_failure (req_body r') = Some PasswordPresent /\
   run (example_serve r') Example.blog
   = mkState Example.blog
       (Some (mkResponse 422 (Json (message "message" "Missing password")))) []).
Proof.
  intros r r'. split.
  - split; [reflexivity | split; [reflexivity | split; [reflexivity |]]].
    exact (registration_validation_order
             Example.castOther Example.castNested Example.castObjectId
             Example.bcrypt_hash Example.bcrypt_compare r Example.blog UserNameNonBlank
             eq_refl eq_refl eq_refl).
  - split; [reflexivity | split; [reflexivity | split; [reflexivity |]]].
    exact (registration_validation_order
             Example.castOther Example.castNested Example.castObjectId
             Example.bcrypt_hash Example.bcrypt_compare r' Example.blog PasswordPresent
             eq_refl eq_refl eq_refl).
Defined.

(** C5.  A registration request without a body, which the JSON parser
    hands to the handler as the object without properties, is answered 422
    "Missing username", not 400: [req.body] is truthy then, the check of
    the handler for an empty body does not see it, and the first check that
    fails is the one for [userName]. *)
Theorem empty_body_is_answered_422 :
  let r := Example.request POST_users None emptyRequestBody in
  parsedBody (req_body r) = true /\
  truthy (req_body r) = true /\
  spec_first_failure (req_body r) = Some UserNamePresent /\
  run (example_serve r) Example.blog
  = mkState Example.blog
      (Some (mkResponse 422 (Json (message "message" "Missing username")))) [].
Proof.
  repeat split.
Qed.

(** Bob registers twice, the second time with another password. *)
Lemma second_registration_rejected_witness :
  let r1 := Example.request POST_users None (Example.bob "topsecret") in
  let r2 := Example.request POST_users None (Example.bob "open sesame") in
  let d1 := db (run (example_serve r1) Example.blog) in
  let st2 := run (example_serve r2) d1 in
  (exists resp, sent (run (example_serve r1) Example.blog) = Some resp /\ status resp = 201) /\
  js_get (req_body r2) "userName" = js_get (req_body r1) "userName" /\
  spec_first_failure (req_body r2) = None /\
  sent st2
  = Some (mkResponse 400 (Json (message "message" "This username already exists"))) /\
  db st2 = d1 /\
  exists name,
    calls st2 = [UserCount name; UserCreate] /\
    (0 < length (filter (fun u => String.eqb (userName u) name) (users d1)))%nat.
Proof.
  intros r1 r2 d1 st2.
  assert (H201 : exists resp,
             sent (run (example_serve r1) Example.blog) = Some resp /\ status resp = 201).
  { eexists. split; reflexivity. }
  split; [exact H201 | split; [reflexivity | split; [reflexivity |]]].
  exact (second_registration_rejected
           Example.castOther Example.castNested Example.castObjectId
           Example.bcrypt_hash Example.bcrypt_compare r1 r2 Example.blog
           eq_refl eq_refl H201 eq_refl eq_refl).
Defined.

(** A post without an author and with a [null] content, and a post whose
    author has a first name only. *)
Lemma post_creation_witness :
  let r := Example.request POST_posts None Example.anonymousPost in
  let r' := Example.request POST_posts None Example.halfSignedPost in
  let doc := mkBlogPost 3 (mkAuthor Absent Absent) (Txt "Through the glass") Null 2000 in
  let doc' := mkBlogPost 3 (mkAuthor (Txt "Lewis") Absent) (Txt "Through the glass")
                (Txt "One thing was certain") 2000 in
  (run (example_behind_gate r) Example.blog
   = mkState (mkStore [Example.firstPost; doc] [Example.alice] 4)
       (Some (mkResponse 201 (Json (post_apiRepr doc)))) [PostCreate] /\
   js_get (post_apiRepr doc) "title" = inr (VStr "Through the glass") /\
   js_get (post_apiRepr doc) "content" = inr VNull /\
   js_get (post_apiRepr doc) "author" = inr (VStr "undefined undefined")) /\
  (run (example_behind_gate r') Example.blog
   = mkState (mkStore [Example.firstPost; doc'] [Example.alice] 4)
       (Some (mkResponse 201 (Json (post_apiRepr doc')))) [PostCreate] /\
   js_get (post_apiRepr doc') "title" = inr (VStr "Through the glass") /\
   js_get (post_apiRepr doc') "content" = inr (VStr "One thing was certain") /\
   js_get (post_apiRepr doc') "author" = inr (VStr "Lewis undefined")).
Proof.
  intros r r' doc doc'. split.
  - exact (proj1 (proj2 (proj2
             (post_creation Example.castOther Example.castNested Example.castObjectId
                Example.bcrypt_hash r Example.blog eq_refl)))
             "Through the glass" Null (mkAuthor Absent Absent)
             eq_refl ltac:(discriminate) eq_refl eq_refl eq_refl).
  - exact (proj1 (proj2 (proj2
             (post_creation Example.castOther Example.castNested Example.castObjectId
                Example.bcrypt_hash r' Example.blog eq_refl)))
             "Through the glass" (Txt "One thing was certain") (mkAuthor (Txt "Lewis") Absent)
             eq_refl ltac:(discriminate) eq_refl eq_refl eq_refl).
Defined.

(** A new title for the first post: its content and author stay. *)
Lemma update_frame_witness :
  let r := Example.request (PUT_posts_id Example.firstPostId) None
             (Example.retitle Example.firstPostId) in
  let st := run (example_behind_gate r) Example.blog in
  target r = PUT_posts_id Example.firstPostId /\
  Example.firstPostId <> "" /\
  js_get (req_body r) "id" = inr (VStr Example.firstPostId) /\
  findPost 2 (blogposts Example.blog) = Some Example.firstPost /\
  exists p',
    findPost 2 (blogposts (db st)) = Some p' /\
    post_id p' = 2%N /\
    created p' = 1000%Z /\
    content p' = Txt "Alice was beginning" /\
    author p' = mkAuthor (Txt "Lewis") (Txt "Carroll").
Proof.
  intros r st.
  split; [reflexivity | split; [discriminate | split; [reflexivity | split; [reflexivity |]]]].
  destruct (proj2 (proj2
              (update_frame Example.castOther Example.castNested Example.castObjectId
                 Example.bcrypt_hash r Example.blog Example.firstPostId
                 eq_refl ltac:(discriminate) eq_refl))
              2%N Example.firstPost eq_refl)
    as (p' & Hfind & Hid & Hcreated & _ & Hcontent & Hauthor & _).
  exists p'. split; [exact Hfind |]. split; [exact Hid |]. split; [exact Hcreated |].
  split; [exact (Hcontent eq_refl) | exact (Hauthor eq_refl)].
Defined.

(** A post with no name, and one with a first name only. *)
Lemma authorName_of_absent_names_witness :
  let p := mkBlogPost 7 (mkAuthor Absent Absent) (Txt "Untitled") Absent 0 in
  let q := mkBlogPost 8 (mkAuthor (Txt " Lewis") Absent) (Txt "Untitled") Absent 0 in
  (firstName (author p) = Absent /\ lastName (author p) = Absent /\
   authorName p = "undefined undefined" /\ authorName p <> "") /\
  (firstName (author q) <> Absent /\ lastName (author q) = Absent /\
   includes "undefined" (authorName q)).
Proof.
  intros p q. split.
  - split; [reflexivity | split; [reflexivity |]].
    exact (proj1 (proj2 (authorName_of_absent_names p)) eq_refl eq_refl).
  - split; [discriminate | split; [reflexivity |]].
    exact (proj2 (proj2 (proj2 (authorName_of_absent_names q)))
             ltac:(discriminate) eq_refl).
Defined.

(* ===================================================================== *)
(** ** Further properties, on the example store *)
(* ===================================================================== *)

(** X23.  The password is never compared: on every route, the state after
    a request does not depend on the password of its credentials, as long
    as there is one, nor on what [bcrypt.compare] would answer. *)
Theorem password_is_never_compared
    (castOther : value -> option string) (castNested : value -> option Author)
    (castObjectId : string -> option N) (bcrypt_hash : string -> nat -> string -> string)
    (compare1 compare2 : string -> string -> bool)
    (t : route) (userid pw1 pw2 : string) (b : value) (time : Z) (salt : string)
    (d : store) :
  pw1 <> "" ->
  pw2 <> "" ->
  run (serve castOther castNested castObjectId bcrypt_hash compare1
         (mkRequest t (Some (userid, pw1)) b time salt)) d
  = run (serve castOther castNested castObjectId bcrypt_hash compare2
           (mkRequest t (Some (userid, pw2)) b time salt)) d.
Proof.
  intros H1 H2. apply String.eqb_neq in H1, H2.
  destruct (protected t) eqn:Hp.
  - rewrite !protected_route_run by exact Hp. simpl.
    rewrite H1, H2. reflexivity.
  - unfold serve. simpl. rewrite Hp. destruct t; try discriminate; reflexivity.
Qed.

(** Alice's password and another one, on the list of posts. *)
Lemma password_is_never_compared_witness :
  "baseball" <> "" /\
  "open sesame" <> "" /\
  run (example_serve (mkRequest GET_posts (Some ("alice", "baseball")) (VObj []) 0 "")) Example.blog
  = run (serve Example.castOther Example.castNested Example.castObjectId Example.bcrypt_hash
           (fun _ _ => true)
           (mkRequest GET_posts (Some ("alice", "open sesame")) (VObj []) 0 "")) Example.blog.
Proof.
  split; [discriminate | split; [discriminate |]].
  exact (password_is_never_compared
           Example.castOther Example.castNested Example.castObjectId Example.bcrypt_hash
           Example.bcrypt_compare (fun _ _ => true)
           GET_posts "alice" "baseball" "open sesame" (VObj []) 0%Z ""
           Example.blog ltac:(discriminate) ltac:(discriminate)).
Defined.

(** Alice with her password, a header without a colon in its credentials,
    and a header of one part, on DELETE /:id and on the list of posts. *)
Lemma protected_routes_answer_no_one_witness :
  let r := Example.request (DELETE_id "x") None VUndefined in
  let r' := Example.request GET_posts None VUndefined in
  Example.atob "YWxpY2U6YmFzZWJhbGw=" = "alice:baseball" /\
  Example.atob "YWxpY2U=" = "alice" /\
  protected (target r) = true /\
  protected (target r') = true /\
  sent (run (example_receive (Some "Basic YWxpY2U6YmFzZWJhbGw=") r) Example.blog)
  = Some (mkResponse 500 (Text "Internal Server Error")) /\
  sent (run (example_receive (Some "Basic YWxpY2U=") r') Example.blog)
  = Some (mkResponse 400 (Text "Bad Request")) /\
  sent (run (example_receive (Some "Basic") r') Example.blog)
  = Some (mkResponse 400 (Text "Bad Request")) /\
  sent (run (example_receive (Some "Bearer abc") r') Example.blog)
  = Some (mkResponse 401 (Text "Unauthorized")).
Proof.
  intros r r'.
  split; [reflexivity | split; [reflexivity | split; [reflexivity | split; [reflexivity |]]]].
  split; [| split; [| split]].
  - exact (proj2 (proj2
             (protected_routes_answer_no_one
                Example.castOther Example.castNested Example.castObjectId
                Example.bcrypt_hash Example.bcrypt_compare Example.atob
                (Some "Basic YWxpY2U6YmFzZWJhbGw=") r Example.blog eq_refl))).
  - exact (proj2 (proj2
             (protected_routes_answer_no_one
                Example.castOther Example.castNested Example.castObjectId
                Example.bcrypt_hash Example.bcrypt_compare Example.atob
                (Some "Basic YWxpY2U=") r' Example.blog eq_refl))).
  - exact (proj2 (proj2
             (protected_routes_answer_no_one
                Example.castOther Example.castNested Example.castObjectId
                Example.bcrypt_hash Example.bcrypt_compare Example.atob
                (Some "Basic") r' Example.blog eq_refl))).
  - exact (proj2 (proj2
             (protected_routes_answer_no_one
                Example.castOther Example.castNested Example.castObjectId
                Example.bcrypt_hash Example.bcrypt_compare Example.atob
                (Some "Bearer abc") r' Example.blog eq_refl))).
Defined.

(** Bob registers, then asks for the posts with the password he gave. *)
Lemma registered_user_is_refused_witness :
  let r1 := Example.request POST_users None (Example.bob "topsecret") in
  let r2 := Example.request GET_posts (Some ("bob", "topsecret")) (VObj []) in
  let d1 := db (run (example_serve r1) Example.blog) in
  (exists resp, sent (run (example_serve r1) Example.blog) = Some resp /\ status resp = 201) /\
  run (example_serve r2) d1
  = mkState d1 (Some (mkResponse 500 (Text "Internal Server Error"))) [UserFindOne "bob"].
Proof.
  intros r1 r2 d1.
  assert (H201 : exists resp,
             sent (run (example_serve r1) Example.blog) = Some resp /\ status resp = 201).
  { eexists. split; reflexivity. }
  split; [exact H201 |].
  exact (registered_user_is_refused
           Example.castOther Example.castNested Example.castObjectId
           Example.bcrypt_hash Example.bcrypt_compare r1 r2 Example.blog "bob" "topsecret"
           eq_refl H201 eq_refl eq_refl eq_refl ltac:(discriminate)).
Defined.

(** The list of the example store: its one post. *)
Lemma posts_are_listed_witness :
  let r := Example.request GET_posts None VUndefined in
  target r = GET_posts /\
  db (run (example_behind_gate r) Example.blog) = Example.blog /\
  exists items,
    sent (run (example_behind_gate r) Example.blog) = Some (mkResponse 200 (Json (VArr items))) /\
    length items = 1.
Proof.
  intros r. split; [reflexivity |].
  destruct (posts_are_listed Example.castOther Example.castNested Example.castObjectId
              Example.bcrypt_hash r Example.blog eq_refl) as (Hdb & items & Hs & Hl & _).
  split; [exact Hdb |]. exists items. split; [exact Hs | exact Hl].
Defined.

Lemma example_ids_are_distinct : NoDup (map post_id (blogposts Example.blog)).
Proof.
  repeat constructor. intros [].
Qed.

(** The first post is deleted. *)
Lemma delete_removes_the_post_witness :
  let r := Example.request (DELETE_posts_id Example.firstPostId) None VUndefined in
  let st := run (example_behind_gate r) Example.blog in
  target r = DELETE_posts_id Example.firstPostId /\
  Example.castObjectId Example.firstPostId = Some 2%N /\
  NoDup (map post_id (blogposts Example.blog)) /\
  sent st = Some (mkResponse 204 (Json (message "message" "success"))) /\
  findPost 2 (blogposts (db st)) = None /\
  length (blogposts (db st)) = 0.
Proof.
  intros r st.
  split; [reflexivity | split; [reflexivity | split; [exact example_ids_are_distinct |]]].
  destruct (delete_removes_the_post Example.castOther Example.castNested Example.castObjectId
              Example.bcrypt_hash r Example.blog Example.firstPostId 2%N
              eq_refl eq_refl example_ids_are_distinct) as (Hs & Hgone & _ & Hlen & _).
  split; [exact Hs | split; [exact Hgone | exact Hlen]].
Defined.

Lemma delete_is_idempotent_witness :
  let r := Example.request (DELETE_posts_id Example.firstPostId) None VUndefined in
  let st1 := run (example_behind_gate r) Example.blog in
  let st2 := run (example_behind_gate r) (db st1) in
  target r = DELETE_posts_id Example.firstPostId /\
  NoDup (map post_id (blogposts Example.blog)) /\
  db st2 = db st1 /\ sent st2 = sent st1.
Proof.
  intros r st1 st2.
  split; [reflexivity | split; [exact example_ids_are_distinct |]].
  exact (delete_is_idempotent Example.castOther Example.castNested Example.castObjectId
           Example.bcrypt_hash r Example.blog Example.firstPostId
           eq_refl example_ids_are_distinct).
Defined.

Lemma deleted_post_is_not_served_witness :
  let r1 := Example.request (DELETE_posts_id Example.firstPostId) None VUndefined in
  let r2 := Example.request (GET_posts_id Example.firstPostId) None VUndefined in
  let d1 := db (run (example_behind_gate r1) Example.blog) in
  Example.castObjectId Example.firstPostId = Some 2%N /\
  NoDup (map post_id (blogposts Example.blog)) /\
  sent (run (example_behind_gate r2) Example.blog)
  = Some (mkResponse 200 (Json (post_apiRepr Example.firstPost))) /\
  run (example_behind_gate r2) d1
  = mkState d1
      (Some (mkResponse 500 (Json (message "error" "something went horribly awry"))))
      [PostFindById Example.firstPostId].
Proof.
  intros r1 r2 d1.
  split; [reflexivity | split; [exact example_ids_are_distinct | split; [reflexivity |]]].
  exact (deleted_post_is_not_served Example.castOther Example.castNested Example.castObjectId
           Example.bcrypt_hash r1 r2 Example.blog Example.firstPostId 2%N
           eq_refl eq_refl eq_refl example_ids_are_distinct).
Defined.

(** A post is created and read back under the id 3. *)
Lemma created_post_is_served_witness :
  let r1 := Example.request POST_posts None Example.newPost in
  let r2 := Example.request (GET_posts_id "000000000000000000000003") None VUndefined in
  let v := post_apiRepr
             (mkBlogPost 3 (mkAuthor (Txt "Lewis") (Txt "Carroll"))
                (Txt "Through the glass") (Txt "One thing was certain") 2000) in
  sent (run (example_behind_gate r1) Example.blog) = Some (mkResponse 201 (Json v)) /\
  findPost (nextId Example.blog) (blogposts Example.blog) = None /\
  Example.castObjectId "000000000000000000000003" = Some (nextId Example.blog) /\
  js_get v "id" = inr (VObjectId (nextId Example.blog)) /\
  sent (run (example_behind_gate r2) (db (run (example_behind_gate r1) Example.blog)))
  = Some (mkResponse 200 (Json v)).
Proof.
  intros r1 r2 v.
  split; [reflexivity | split; [reflexivity | split; [reflexivity |]]].
  exact (created_post_is_served Example.castOther Example.castNested Example.castObjectId
           Example.bcrypt_hash r1 r2 Example.blog "000000000000000000000003" v
           eq_refl eq_refl eq_refl eq_refl eq_refl).
Defined.

(** The first post gets a new title and is read back. *)
Lemma updated_post_is_served_witness :
  let r1 := Example.request (PUT_posts_id Example.firstPostId) None
              (Example.retitle Example.firstPostId) in
  let r2 := Example.request (GET_posts_id Example.firstPostId) None VUndefined in
  let v := post_apiRepr
             (mkBlogPost 2 (mkAuthor (Txt "Lewis") (Txt "Carroll"))
                (Txt "cats cats cats") (Txt "Alice was beginning") 1000) in
  sent (run (example_behind_gate r1) Example.blog) = Some (mkResponse 201 (Json v)) /\
  sent (run (example_behind_gate r2) (db (run (example_behind_gate r1) Example.blog)))
  = Some (mkResponse 200 (Json v)).
Proof.
  intros r1 r2 v. split; [reflexivity |].
  exact (updated_post_is_served Example.castOther Example.castNested Example.castObjectId
           Example.bcrypt_hash r1 r2 Example.blog Example.firstPostId v
           eq_refl eq_refl eq_refl).
Defined.

(** An update for an id that no post has. *)
Lemma update_of_missing_post_is_500_witness :
  let r := Example.request (PUT_posts_id Example.otherId) None
             (Example.retitle Example.otherId) in
  let st := run (example_behind_gate r) Example.blog in
  Example.otherId <> "" /\
  js_get (req_body r) "id" = inr (VStr Example.otherId) /\
  findPost 255 (blogposts Example.blog) = None /\
  db st = Example.blog /\
  exists resp, sent st = Some resp /\ status resp = 500.
Proof.
  intros r st.
  split; [discriminate | split; [reflexivity | split; [reflexivity |]]].
  exact (update_of_missing_post_is_500 Example.castOther Example.castNested
           Example.castObjectId Example.bcrypt_hash r Example.blog Example.otherId
           eq_refl ltac:(discriminate) eq_refl eq_refl).
Defined.

(** Bob registers with white space around his name and his password. *)
Lemma valid_registration_is_accepted_witness :
  let r := Example.request POST_users None
             (VObj [ ("userName", VStr " bob "); ("password", VStr " topsecret ");
                     ("firstName", VStr "Bob") ]) in
  let u := mkUser 3 "bob" (Example.bcrypt_hash (salt r) 10 "topsecret") (Txt "Bob") Absent in
  spec_first_failure (req_body r) = None /\
  existsb (fun x => String.eqb (userName x) "bob") (users Example.blog) = false /\
  Example.bcrypt_hash (salt r) 10 "topsecret" <> "" /\
  run (example_serve r) Example.blog
  = mkState (mkStore [Example.firstPost] [Example.alice; u] 4)
      (Some (mkResponse 201 (Json (user_apiRepr u))))
      [UserCount "bob"; UserCreate].
Proof.
  intros r u.
  split; [reflexivity | split; [reflexivity | split; [discriminate |]]].
  exact (valid_registration_is_accepted
           Example.castOther Example.castNested Example.castObjectId
           Example.bcrypt_hash Example.bcrypt_compare r Example.blog
           " bob " " topsecret " (Txt "Bob") Absent
           eq_refl eq_refl eq_refl eq_refl eq_refl eq_refl eq_refl ltac:(discriminate)).
Defined.

(** Bob registers, then " bob " tries. *)
Lemma names_are_compared_trimmed_witness :
  let r1 := Example.request POST_users None (Example.bob "topsecret") in
  let r2 := Example.request POST_users None
              (VObj [ ("userName", VStr " bob "); ("password", VStr "open sesame") ]) in
  let d1 := db (run (example_serve r1) Example.blog) in
  (exists resp, sent (run (example_serve r1) Example.blog) = Some resp /\ status resp = 201) /\
  trim " bob " = trim "bob" /\
  spec_first_failure (req_body r2) = None /\
  sent (run (example_serve r2) d1)
  = Some (mkResponse 400 (Json (message "message" "This username already exists"))) /\
  db (run (example_serve r2) d1) = d1.
Proof.
  intros r1 r2 d1.
  assert (H201 : exists resp,
             sent (run (example_serve r1) Example.blog) = Some resp /\ status resp = 201).
  { eexists. split; reflexivity. }
  split; [exact H201 | split; [reflexivity | split; [reflexivity |]]].
  exact (proj2 (names_are_compared_trimmed
           Example.castOther Example.castNested Example.castObjectId
           Example.bcrypt_hash Example.bcrypt_compare r1 r2 Example.blog "bob" " bob "
           eq_refl eq_refl H201 eq_refl eq_refl eq_refl eq_refl)).
Defined.

Lemma example_names_are_distinct : NoDup (map userName (users Example.blog)).
Proof.
  repeat constructor. intros [].
Qed.

(** Bob registers on the example store. *)
Lemma user_names_stay_unique_witness :
  let r := Example.request POST_users None (Example.bob "topsecret") in
  NoDup (map userName (users Example.blog)) /\
  map userName (users (db (run (example_serve r) Example.blog))) = ["alice"; "bob"] /\
  NoDup (map userName (users (db (run (example_serve r) Example.blog)))).
Proof.
  intros r. split; [exact example_names_are_distinct | split; [reflexivity |]].
  exact (proj1 (user_names_stay_unique
           Example.castOther Example.castNested Example.castObjectId
           Example.bcrypt_hash Example.bcrypt_compare r Example.blog
           example_names_are_distinct)).
Defined.

(** A post with a [null] title: nothing is stored. *)
Lemma post_is_stored_whole_or_not_at_all_witness :
  let r := Example.request POST_posts None Example.nullTitle in
  let st := run (example_behind_gate r) Example.blog in
  target r = POST_posts /\
  exists resp, sent st = Some resp /\ status resp = 500 /\ db st = Example.blog.
Proof.
  intros r st. split; [reflexivity |].
  destruct (post_is_stored_whole_or_not_at_all
              Example.castOther Example.castNested Example.castObjectId
              Example.bcrypt_hash r Example.blog eq_refl) as (resp & Hs & Hkept & _).
  exists resp. split; [exact Hs |].
  assert (H500 : status resp = 500).
  { change (sent st = Some resp) in Hs. compute in Hs. injection Hs as <-. reflexivity. }
  split; [exact H500 |]. apply Hkept. rewrite H500. discriminate.
Defined.

(** A new title for the first post. *)
Lemma update_is_applied_or_store_is_kept_witness :
  let r := Example.request (PUT_posts_id Example.firstPostId) None
             (Example.retitle Example.firstPostId) in
  let st := run (example_behind_gate r) Example.blog in
  Example.firstPostId <> "" /\
  js_get (req_body r) "id" = inr (VStr Example.firstPostId) /\
  exists resp,
    sent st = Some resp /\
    (status resp = 201 \/ status resp = 500) /\
    (status resp = 500 -> db st = Example.blog).
Proof.
  intros r st. split; [discriminate | split; [reflexivity |]].
  destruct (update_is_applied_or_store_is_kept
              Example.castOther Example.castNested Example.castObjectId
              Example.bcrypt_hash r Example.blog Example.firstPostId
              eq_refl ltac:(discriminate) eq_refl) as (resp & Hs & Hst & Hkept & _).
  exists resp. split; [exact Hs | split; [exact Hst | exact Hkept]].
Defined.

(** The title of the first post is set to the empty string. *)
Lemma update_does_not_ask_for_a_title_witness :
  let r := Example.request (PUT_posts_id Example.firstPostId) None
             (VObj [ ("id", VStr Example.firstPostId); ("title", VStr "") ]) in
  let p' := mkBlogPost 2 (mkAuthor (Txt "Lewis") (Txt "Carroll")) (Txt "")
              (Txt "Alice was beginning") 1000 in
  Example.firstPostId <> "" /\
  Example.castObjectId Example.firstPostId = Some 2%N /\
  findPost 2 (blogposts Example.blog) = Some Example.firstPost /\
  run (example_behind_gate r) Example.blog
  = mkState (mkStore [p'] [Example.alice] 3)
      (Some (mkResponse 201 (Json (post_apiRepr p'))))
      [PostFindByIdAndUpdate Example.firstPostId].
Proof.
  intros r p'.
  split; [discriminate | split; [reflexivity | split; [reflexivity |]]].
  exact (update_does_not_ask_for_a_title
           Example.castOther Example.castNested Example.castObjectId
           Example.bcrypt_hash r Example.blog Example.firstPostId
           [ ("id", VStr Example.firstPostId); ("title", VStr "") ]
           2%N Example.firstPost ""
           eq_refl eq_refl ltac:(discriminate) eq_refl eq_refl eq_refl eq_refl
           eq_refl eq_refl).
Defined.

(** The author of the first post. *)
Lemma authorName_of_plain_names_witness :
  "Lewis" <> "" /\ trimStart "Lewis" = "Lewis" /\
  "Carroll" <> "" /\ trimEnd "Carroll" = "Carroll" /\
  authorName Example.firstPost = "Lewis Carroll".
Proof.
  split; [discriminate | split; [reflexivity | split; [discriminate | split; [reflexivity |]]]].
  exact (authorName_of_plain_names Example.firstPost "Lewis" "Carroll"
           eq_refl eq_refl ltac:(discriminate) eq_refl ltac:(discriminate) eq_refl).
Defined.

Lemma example_names_are_trimmed :
  Forall (fun u : User => userName u <> "" /\ trim (userName u) = userName u)
    (users Example.blog).
Proof.
  repeat constructor. discriminate.
Qed.

(** Bob registers with white space around his name. *)
Lemma stored_names_are_trimmed_witness :
  let r := Example.request POST_users None
             (VObj [ ("userName", VStr " bob "); ("password", VStr "topsecret") ]) in
  Forall (fun u : User => userName u <> "" /\ trim (userName u) = userName u)
    (users Example.blog) /\
  map userName (users (db (run (example_serve r) Example.blog))) = ["alice"; "bob"] /\
  Forall (fun u : User => userName u <> "" /\ trim (userName u) = userName u)
    (users (db (run (example_serve r) Example.blog))).
Proof.
  intros r. split; [exact example_names_are_trimmed | split; [reflexivity |]].
  exact (proj1 (stored_names_are_trimmed
           Example.castOther Example.castNested Example.castObjectId
           Example.bcrypt_hash Example.bcrypt_compare r Example.blog
           example_names_are_trimmed)).
Defined.

(** The port is taken: the connection that was opened is closed again. *)
Lemma runServer_leaves_no_connection_behind_witness :
  let p := mkProcess false None in
  connected p = false /\
  runServer false true p = (Rejected ListenError, mkProcess false (Some false)) /\
  connected (snd (runServer false true p)) = false.
Proof.
  intros p. split; [reflexivity | split; [reflexivity |]].
  exact (proj1 (proj2 (proj2
           (runServer_leaves_no_connection_behind false true p eq_refl)))
           ltac:(discriminate)).
Defined.
